(** * The knowledge-base notebook: chat widget, retrieval cell, model lookup

    A shallow embedding of the code cells of
    [lab2-rag-with-bedrock-knowledge-base/kb_bedrock.ipynb]:

    - the [ChatUX] class ([__init__], [start_chat], [chat]), a callback-driven
      chat box that forwards each line to [retrieve_and_generate];
    - the retrieval cell ([retrieve] followed by the (text, score)
      comprehension);
    - the model catalog lookup that computes [claude_v2_model_arn].

    The external service is a parameter everywhere: it is whatever object the
    notebook is handed, so every statement below holds for every service. *)

From Stdlib Require Import String Ascii Bool Arith ZArith Lia DecimalString.
From stdpp Require Import base option list.

Local Open Scope string_scope.
Local Open Scope list_scope.

(** ** Python values shared by the cells *)

(** An exception object, with the name of its class and its message.  [Exn]
    is an instance of a class that derives from [Exception], as every error
    of the service client does; [BaseExn] is an instance of a class that
    derives from [BaseException] only ([KeyboardInterrupt], [SystemExit]).
    [str(e)] is the message. *)
Inductive exn : Type :=
| Exn (cls msg : string)
| BaseExn (cls msg : string).

Definition str (e : exn) : string :=
  match e with
  | Exn _ msg => msg
  | BaseExn _ msg => msg
  end.

(** [isinstance(e, Exception)]: what [except Exception] asks. *)
Definition is_Exception (e : exn) : bool :=
  match e with
  | Exn _ _ => true
  | BaseExn _ _ => false
  end.

(** [None.attr]: what Python raises when a field that holds [None] is
    dereferenced. *)
Definition AttributeError (attr : string) : exn :=
  Exn "AttributeError" ("'NoneType' object has no attribute '" ++ attr ++ "'").

(** [[][0]]. *)
Definition IndexError : exn :=
  Exn "IndexError" "list index out of range".

(** A reference into a store that holds no such object.  Python cannot produce
    one; the store of the model is a list, so the case has to be given a
    meaning, and it is kept apart from every Python error. *)
Definition Dangling : exn :=
  Exn "<model>" "dangling reference".

Inductive result (A : Type) : Type :=
| Ok (a : A)
| Raise (e : exn).
Arguments Ok {A} a.
Arguments Raise {A} e.

(** Python truthiness of a field that holds [None] or a [str]:
    [None] and the empty string are false, every other string is true. *)
Definition truthy (v : option string) : bool :=
  match v with
  | None => false
  | Some s => negb (String.eqb s "")
  end.

(** ** The retrieve-and-generate call *)

(** The keyword arguments of [retrieve_and_generate].  [req_sessionId = None]
    is the call that does not pass [sessionId] at all. *)
Record request : Type := {
  req_sessionId : option string;
  req_input_text : string;
  req_type : string;
  req_knowledgeBaseId : string;
  req_modelArn : string
}.

(** A response of the service, with the two entries [chat] reads:
    [response['sessionId']] and [response['output']['text']].  A call that
    returns hands back a response of this shape; a call that fails raises. *)
Record response : Type := {
  sessionId : string;
  output_text : string
}.

Inductive outcome : Type :=
| Returned (r : response)
| Raised (e : exn).

(** ** Widgets *)

(** The only callback ever registered: the bound method [self.chat]. *)
Inductive callback : Type :=
| self_chat.

(** [ipw.Text]. *)
Record Text : Type := {
  text_description : string;
  text_placeholder : string;
  text_value : string;
  text_disabled : bool
}.

(** [ipw.Button]. *)
Record Button : Type := {
  button_description : string;
  button_disabled : bool;
  button_on_click : list callback
}.

(** [ipw.Label]. *)
Record Label : Type := {
  label_value : string
}.

(** What the notebook has printed, displayed and asked of the service, in
    order.  The trace records what is shown, not where: [with self.out:] only
    directs the output of its block into the output area.  [Escaped e] marks
    that [e] left a callback uncaught. *)
Inductive event : Type :=
| Printed (s : string)
| DisplayedOutput
| DisplayedLabel (r : nat)
| DisplayedBox (text_ref button_ref : nat)
| Called (req : request) (res : outcome)
| Escaped (e : exn).

(** The fields of a [ChatUX] object.  [self.qa] is the service of the section
    below and [self.out] is the one [ipw.Output] of the object. *)
Record ChatUX : Type := {
  name : option nat;
  b : option nat;
  session_id : option string
}.

(** ** Reading a trace *)

(** The session identifier an observer of the trace expects to be stored after
    the events [l], when [sid] was stored before them: the ['sessionId'] of the
    last call that returned, and [sid] when no call returned. *)
Fixpoint stored_after (sid : option string) (l : list event) : option string :=
  match l with
  | [] => sid
  | Called _ (Returned r) :: l' => stored_after (Some (sessionId r)) l'
  | _ :: l' => stored_after sid l'
  end.

Definition last_session (l : list event) : option string :=
  stored_after None l.

(** The session field a call sends when [sid] is stored. *)
Definition sent_session (sid : option string) : option string :=
  if truthy sid then sid else None.

(** Every call of the trace carries the session field computed from what was
    stored when it was made. *)
Fixpoint threaded (sid : option string) (l : list event) : Prop :=
  match l with
  | [] => True
  | Called req res :: l' =>
      req_sessionId req = sent_session sid
      /\ threaded (stored_after sid [Called req res]) l'
  | _ :: l' => threaded sid l'
  end.

Definition is_call (e : event) : bool :=
  match e with Called _ _ => true | _ => false end.

Definition is_box (e : event) : bool :=
  match e with DisplayedBox _ _ => true | _ => false end.

Definition is_returned (e : event) : bool :=
  match e with Called _ (Returned _) => true | _ => false end.

Definition calls (l : list event) : list event := List.filter is_call l.
Definition boxes (l : list event) : list event := List.filter is_box l.
Definition returned_calls (l : list event) : list event :=
  List.filter is_returned l.

(** The requests of the calls of a trace, in order, and what the calls
    came to. *)
Definition requests (l : list event) : list request :=
  List.flat_map (fun e => match e with Called req _ => [req] | _ => [] end) l.

Definition outcomes (l : list event) : list outcome :=
  List.flat_map (fun e => match e with Called _ res => [res] | _ => [] end) l.

(** ** The quit sentinel as the specification words it

    The specification asks for a case-insensitive match of [q] or [quit].
    This is that reading, to be compared with the test [chat] makes. *)

Definition lower_ascii (c : ascii) : ascii :=
  let n := nat_of_ascii c in
  if (65 <=? n)%nat && (n <=? 90)%nat then ascii_of_nat (n + 32) else c.

Fixpoint lower (s : string) : string :=
  match s with
  | EmptyString => EmptyString
  | String c s' => String (lower_ascii c) (lower s')
  end.

Definition quit_sentinel_ci (line : string) : bool :=
  String.eqb (lower line) "q" || String.eqb (lower line) "quit".

(** ** The retrieval cell *)

Section Retrieval.

(** The relevance score is a float the notebook never computes with: it is
    read from the response and handed on. *)
Variable Score : Type.

(** One element of [response['retrievalResults']], with the two entries the
    comprehension reads: [x['content']['text']] and [x['score']]. *)
Record retrieval_content : Type := {
  content_text : string
}.

Record retrieval_result : Type := {
  result_content : retrieval_content;
  result_score : Score
}.

(** The keyword arguments of [retrieve]. *)
Record retrieve_request : Type := {
  retrieve_knowledgeBaseId : string;
  retrievalQuery_text : string;
  numberOfResults : Z
}.

(** [agent_runtime_client.retrieve]: it raises, or it returns a response whose
    ['retrievalResults'] is the list given here. *)
Variable retrieve : retrieve_request -> result (list retrieval_result).

(** [[ (x['content']['text'], x['score']) for x in response['retrievalResults'] ]]. *)
Definition documents (retrievalResults : list retrieval_result)
  : list (string * Score) :=
  List.map (fun x => (content_text (result_content x), result_score x))
           retrievalResults.

(** The retrieval cell for a query and a count; the notebook runs it at
    ['Toy Story'] and [3].  An error of [retrieve] is not handled. *)
Definition retrieval (knowledgebase_id query : string) (count : Z)
  : result (list (string * Score)) :=
  match retrieve {| retrieve_knowledgeBaseId := knowledgebase_id;
                    retrievalQuery_text := query;
                    numberOfResults := count |} with
  | Ok retrievalResults => Ok (documents retrievalResults)
  | Raise e => Raise e
  end.

End Retrieval.

Arguments Build_retrieval_result {Score}.
Arguments result_content {Score}.
Arguments result_score {Score}.
Arguments documents {Score}.
Arguments retrieval {Score}.

(** The loop that prints the documents: one line per pair, from
    [print(f"==> Document Text: {text}, Score: {score}")].  [show] is what the
    f-string makes of a score. *)
Definition document_line {Score : Type} (show : Score -> string)
  (d : string * Score) : string :=
  "==> Document Text: " ++ fst d ++ ", Score: " ++ show (snd d).

(** The retrieval cell followed by the printing cell: the lines printed, or
    the error of [retrieve], which neither cell handles. *)
Definition retrieval_output {Score : Type} (show : Score -> string)
  (retrieve : retrieve_request -> result (list (retrieval_result Score)))
  (knowledgebase_id query : string) (count : Z) : result (list string) :=
  match retrieval retrieve knowledgebase_id query count with
  | Ok docs => Ok (List.map (document_line show) docs)
  | Raise e => Raise e
  end.

(** ** The model catalog lookup *)

Module Catalog.

(** One element of [list_foundation_models()['modelSummaries']]. *)
Record model_summary : Type := {
  summary_modelId : string;
  summary_modelArn : string
}.

Definition modelId : string := "anthropic.claude-v2:1".

(** [list(filter(lambda x: x['modelId'] == modelId, ...))[0]['modelArn']],
    given what [bedrock_agent.list_foundation_models()] did. *)
Definition claude_v2_model_arn
  (list_foundation_models : result (list model_summary)) : result string :=
  match list_foundation_models with
  | Raise e => Raise e
  | Ok modelSummaries =>
      match List.filter (fun x => String.eqb (summary_modelId x) modelId)
                        modelSummaries with
      | [] => Raise IndexError
      | x :: _ => Ok (summary_modelArn x)
      end
  end.

End Catalog.

(** ** Stand-ins for the service

    Small services to run the notebook against.  The state of each is the
    number of calls it has answered. *)

(** Answers every prompt in one session, and fails on the prompt [boom]. *)
Definition echo_service (req : request) (n : nat) : outcome * nat :=
  if String.eqb (req_input_text req) "boom"
  then (Raised (Exn "ClientError" "throttled"), S n)
  else (Returned {| sessionId := "session-1";
                    output_text := "echo: " ++ req_input_text req |}, S n).

(** Every call is cut short by an interrupt of the kernel. *)
Definition interrupted_service (req : request) (n : nat) : outcome * nat :=
  (Raised (BaseExn "KeyboardInterrupt" ""), S n).

(** Hands out the empty string as session identifier. *)
Definition blank_session_service (req : request) (n : nat) : outcome * nat :=
  (Returned {| sessionId := ""; output_text := "ok" |}, S n).

(** Four passages, one of them twice. *)
Definition passages : list (retrieval_result nat) :=
  [ {| result_content := {| content_text := "Toy Story (1995)" |};
       result_score := 71 |};
    {| result_content := {| content_text := "Toy Story 2 (1999)" |};
       result_score := 69 |};
    {| result_content := {| content_text := "Toy Story (1995)" |};
       result_score := 71 |};
    {| result_content := {| content_text := "Small Soldiers (1998)" |};
       result_score := 52 |} ].

(** The scores of [passages] are hundredths; this prints [n] hundredths as
    the f-string prints the float [n / 100]: no trailing zero beyond the
    first decimal ([70] is [0.7], [5] is [0.05], [100] is [1.0]). *)
Definition show_hundredths (n : nat) : string :=
  let digits := fun d => NilZero.string_of_uint (Nat.to_uint d) in
  digits (n / 100) ++ "."
  ++ (if (n mod 10 =? 0)%nat then digits (n mod 100 / 10)
      else digits (n mod 100 / 10) ++ digits (n mod 10)).

(** Supplies all four passages whatever count is asked for. *)
Definition four_passages (req : retrieve_request)
  : result (list (retrieval_result nat)) :=
  Ok passages.

(** Supplies the first [numberOfResults] passages. *)
Definition counted_passages (req : retrieve_request)
  : result (list (retrieval_result nat)) :=
  Ok (take (Z.to_nat (numberOfResults req)) passages).

(** ** The chat widget *)

Section Chat.

(** The object passed to [ChatUX(...)]: a state of its own and the method
    [retrieve_and_generate]. *)
Variable Svc : Type.
Variable retrieve_and_generate : request -> Svc -> outcome * Svc.

(** The two notebook globals [chat] reads. *)
Variable knowledgebase_id : string.
Variable claude_v2_model_arn : string.

(** Everything a callback can read or change. *)
Record world : Type := {
  self : ChatUX;
  texts : list Text;
  buttons : list Button;
  labels : list Label;
  log : list event;
  service : Svc
}.

(** Statements of the notebook: they change the world and either produce a
    value or raise. *)
Definition M (A : Type) : Type := world -> result A * world.

Definition ret {A} (a : A) : M A := fun w => (Ok a, w).

Definition raise {A} (e : exn) : M A := fun w => (Raise e, w).

Definition bind {A B} (m : M A) (k : A -> M B) : M B :=
  fun w =>
    match m w with
    | (Ok a, w') => k a w'
    | (Raise e, w') => (Raise e, w')
    end.

(** [try: body except Exception as e: handler]: what [body] did before it
    raised stays done; the handler runs on instances of [Exception], and any
    other exception goes on to the caller. *)
Definition try_except {A} (body : M A) (handler : exn -> M A) : M A :=
  fun w =>
    match body w with
    | (Ok a, w') => (Ok a, w')
    | (Raise e, w') =>
        if is_Exception e then handler e w' else (Raise e, w')
    end.

Notation "x <- c ;; k" := (bind c (fun x => k))
  (at level 100, c at next level, k at level 200, right associativity).
Notation "c ;;; k" := (bind c (fun _ => k))
  (at level 100, k at level 200, right associativity).

Definition emit (e : event) : M unit :=
  fun w => (Ok tt, {| self := self w; texts := texts w; buttons := buttons w;
                      labels := labels w; log := log w ++ [e];
                      service := service w |}).

Definition print (s : string) : M unit := emit (Printed s).

Definition get_self : M ChatUX := fun w => (Ok (self w), w).

Definition put_self (s : ChatUX) : M unit :=
  fun w => (Ok tt, {| self := s; texts := texts w; buttons := buttons w;
                      labels := labels w; log := log w;
                      service := service w |}).

Definition put_texts (ts : list Text) : M unit :=
  fun w => (Ok tt, {| self := self w; texts := ts; buttons := buttons w;
                      labels := labels w; log := log w;
                      service := service w |}).

Definition put_buttons (bs : list Button) : M unit :=
  fun w => (Ok tt, {| self := self w; texts := texts w; buttons := bs;
                      labels := labels w; log := log w;
                      service := service w |}).

Definition put_labels (ls : list Label) : M unit :=
  fun w => (Ok tt, {| self := self w; texts := texts w; buttons := buttons w;
                      labels := ls; log := log w;
                      service := service w |}).

(** [self.name = v], [self.b = v], [self.session_id = v]. *)
Definition set_name (v : option nat) : M unit :=
  s <- get_self ;;
  put_self {| name := v; b := b s; session_id := session_id s |}.

Definition set_b (v : option nat) : M unit :=
  s <- get_self ;;
  put_self {| name := name s; b := v; session_id := session_id s |}.

Definition set_session_id (v : option string) : M unit :=
  s <- get_self ;;
  put_self {| name := name s; b := b s; session_id := v |}.

(** Reading and writing through a field that may hold [None]. *)
Definition deref (attr : string) (v : option nat) : M nat :=
  match v with
  | None => raise (AttributeError attr)
  | Some r => ret r
  end.

Definition read_text (r : nat) : M Text :=
  fun w => match texts w !! r with
           | Some t => (Ok t, w)
           | None => (Raise Dangling, w)
           end.

Definition read_button (r : nat) : M Button :=
  fun w => match buttons w !! r with
           | Some x => (Ok x, w)
           | None => (Raise Dangling, w)
           end.

Definition write_text (r : nat) (t : Text) : M unit :=
  fun w => put_texts (<[r := t]> (texts w)) w.

Definition write_button (r : nat) (x : Button) : M unit :=
  fun w => put_buttons (<[r := x]> (buttons w)) w.

(** Widget constructors: a new object, referred to by its position. *)
Definition new_text (description placeholder : string) : M nat :=
  fun w =>
    bind (put_texts (texts w ++ [ {| text_description := description;
                                     text_placeholder := placeholder;
                                     text_value := "";
                                     text_disabled := false |} ]))
         (fun _ => ret (length (texts w))) w.

Definition new_button (description : string) : M nat :=
  fun w =>
    bind (put_buttons (buttons w ++ [ {| button_description := description;
                                         button_disabled := false;
                                         button_on_click := [] |} ]))
         (fun _ => ret (length (buttons w))) w.

Definition new_label (value : string) : M nat :=
  fun w =>
    bind (put_labels (labels w ++ [ {| label_value := value |} ]))
         (fun _ => ret (length (labels w))) w.

(** [w.disabled = True] on a text box and on a button. *)
Definition disable_text (r : nat) : M unit :=
  t <- read_text r ;;
  write_text r {| text_description := text_description t;
                  text_placeholder := text_placeholder t;
                  text_value := text_value t;
                  text_disabled := true |}.

Definition disable_button (r : nat) : M unit :=
  x <- read_button r ;;
  write_button r {| button_description := button_description x;
                    button_disabled := true;
                    button_on_click := button_on_click x |}.

(** [b.on_click(f)]. *)
Definition on_click (r : nat) (f : callback) : M unit :=
  x <- read_button r ;;
  write_button r {| button_description := button_description x;
                    button_disabled := button_disabled x;
                    button_on_click := button_on_click x ++ [f] |}.

(** [thinking.value = v]. *)
Definition set_label_value (r : nat) (v : string) : M unit :=
  fun w => put_labels (<[r := {| label_value := v |}]> (labels w)) w.

(** [self.qa.retrieve_and_generate] with the keyword arguments [req]: the
    service runs, the call and what came back are recorded, and an exception
    of the service is raised here. *)
Definition call (req : request) : M response :=
  fun w =>
    let '(res, s') := retrieve_and_generate req (service w) in
    let w' := {| self := self w; texts := texts w; buttons := buttons w;
                 labels := labels w; log := log w ++ [Called req res];
                 service := s' |} in
    match res with
    | Returned r => (Ok r, w')
    | Raised e => (Raise e, w')
    end.

(** The request [chat] builds for [prompt] when [sid] is what
    [self.session_id] holds: both branches of [if self.session_id:]. *)
Definition build_request (sid : option string) (prompt : string) : request :=
  if truthy sid then
    {| req_sessionId := sid;
       req_input_text := prompt;
       req_type := "KNOWLEDGE_BASE";
       req_knowledgeBaseId := knowledgebase_id;
       req_modelArn := claude_v2_model_arn |}
  else
    {| req_sessionId := None;
       req_input_text := prompt;
       req_type := "KNOWLEDGE_BASE";
       req_knowledgeBaseId := knowledgebase_id;
       req_modelArn := claude_v2_model_arn |}.

(** The test of the first [if] of [chat]. *)
Definition is_quit (prompt : string) : bool :=
  String.eqb "q" prompt || String.eqb "quit" prompt || String.eqb "Q" prompt.

(** The [try] statement of [chat]; its value is [result]. *)
Definition generate (prompt : string) : M string :=
  try_except
    (s <- get_self ;;
     response <- call (build_request (session_id s) prompt) ;;
     set_session_id (Some (sessionId response)) ;;;
     ret (output_text response))
    (fun e =>
       print (str e) ;;;
       ret "No answer").

(** The last [if] of [chat]: a fresh input box when there is none. *)
Definition show_input_box : M unit :=
  s <- get_self ;;
  match name s with
  | None =>
      n <- new_text "You: " "q to quit" ;;
      set_name (Some n) ;;;
      x <- new_button "Send" ;;
      set_b (Some x) ;;;
      on_click x self_chat ;;;
      emit (DisplayedBox n x)
  | Some _ => ret tt
  end.

(** [ChatUX.chat].  Its argument, the button that was clicked or [None], is
    never read. *)
Definition chat : M unit :=
  s <- get_self ;;
  prompt <- match name s with
            | None => ret ""
            | Some r => t <- read_text r ;; ret (text_value t)
            end ;;
  if is_quit prompt then
    print "Thank you , that was a nice chat !!"
  else
    (if (0 <? String.length prompt)%nat then
       thinking <- new_label "Thinking..." ;;
       emit (DisplayedLabel thinking) ;;;
       result <- generate prompt ;;
       set_label_value thinking "" ;;;
       print ("AI: " ++ result) ;;;
       s1 <- get_self ;;
       n <- deref "disabled" (name s1) ;;
       disable_text n ;;;
       x <- deref "disabled" (b s1) ;;
       disable_button x ;;;
       set_name None
     else ret tt) ;;;
    show_input_box.

(** [ChatUX.start_chat]. *)
Definition start_chat : M unit :=
  print "Let's chat!" ;;;
  emit DisplayedOutput ;;;
  chat.

(** [ChatUX(qa)]: the world right after [__init__]. *)
Definition init (qa : Svc) : world :=
  {| self := {| name := None; b := None; session_id := None |};
     texts := []; buttons := []; labels := []; log := [];
     service := qa |}.

(** *** The user

    The front end lets the user edit the box on display while it is enabled
    and, on Send, runs the callbacks registered on the button while it is
    enabled.  These are the only ways [chat] is entered again.  An exception
    that leaves a callback does not end the conversation: the widgets stay as
    the callback left them and the next click is served. *)

Definition type_line (line : string) : M unit :=
  s <- get_self ;;
  match name s with
  | None => ret tt
  | Some r =>
      t <- read_text r ;;
      if text_disabled t then ret tt
      else write_text r {| text_description := text_description t;
                           text_placeholder := text_placeholder t;
                           text_value := line;
                           text_disabled := false |}
  end.

Definition run_callback (f : callback) : M unit :=
  match f with self_chat => chat end.

Fixpoint run_callbacks (fs : list callback) : M unit :=
  match fs with
  | [] => ret tt
  | f :: fs' => run_callback f ;;; run_callbacks fs'
  end.

Definition dispatch (callbacks : M unit) : M unit :=
  fun w =>
    match callbacks w with
    | (Ok _, w') => (Ok tt, w')
    | (Raise e, w') => emit (Escaped e) w'
    end.

Definition press_send : M unit :=
  s <- get_self ;;
  match b s with
  | None => ret tt
  | Some r =>
      x <- read_button r ;;
      if button_disabled x then ret tt
      else dispatch (run_callbacks (button_on_click x))
  end.

(** One turn: the user types [line] and presses Send. *)
Definition turn (line : string) : M unit :=
  type_line line ;;;
  press_send.

Fixpoint run (lines : list string) : M unit :=
  match lines with
  | [] => ret tt
  | line :: rest => turn line ;;; run rest
  end.

(** A whole conversation: [ChatUX(qa).start_chat()] and then the turns. *)
Definition session (qa : Svc) (lines : list string) : result unit * world :=
  (start_chat ;;; run lines) (init qa).

(** *** What the statements below speak about *)

(** An input box is on display for the user: [self.name] and [self.b] refer
    to an enabled text box and an enabled button whose click runs [chat]. *)
Definition ready (w : world) : bool :=
  match name (self w), b (self w) with
  | Some n, Some x =>
      match texts w !! n, buttons w !! x with
      | Some t, Some bt =>
          negb (text_disabled t) && negb (button_disabled bt)
          && match button_on_click bt with
             | [self_chat] => true
             | _ => false
             end
      | _, _ => false
      end
  | _, _ => false
  end.

(** The box and the button [show_input_box] leaves behind. *)
Definition input_box : Text :=
  {| text_description := "You: "; text_placeholder := "q to quit";
     text_value := ""; text_disabled := false |}.

Definition send_button : Button :=
  {| button_description := "Send"; button_disabled := false;
     button_on_click := [self_chat] |}.

(** What a generation turn prints once its [try] statement has ended
    normally: the answer, or the error and the placeholder. *)
Definition answer (res : outcome) : list event :=
  match res with
  | Returned r => [Printed ("AI: " ++ output_text r)]
  | Raised e => [Printed (str e); Printed "AI: No answer"]
  end.

(** The [try] statement of [chat] ends normally on this outcome of the call:
    the call returned, or raised what [except Exception] catches. *)
Definition handled (res : outcome) : bool :=
  match res with
  | Returned _ => true
  | Raised e => is_Exception e
  end.

(** What follows the call in the trace of a generation turn: the answer line
    and the new box, or nothing but the exception on its way out. *)
Definition after_call (res : outcome) (text_ref button_ref : nat) : list event :=
  if handled res
  then answer res ++ [DisplayedBox text_ref button_ref]
  else match res with
       | Raised e => [Escaped e]
       | Returned _ => []
       end.

(** What a generation turn leaves in [self.session_id]. *)
Definition kept (sid : option string) (res : outcome) : option string :=
  match res with
  | Returned r => Some (sessionId r)
  | Raised _ => sid
  end.

(** What [start_chat] leaves behind on a new object. *)
Definition greeting : list event :=
  [Printed "Let's chat!"; DisplayedOutput; DisplayedBox 0 0].

Definition first_world (qa : Svc) : world :=
  {| self := {| name := Some 0; b := Some 0; session_id := None |};
     texts := [input_box]; buttons := [send_button]; labels := [];
     log := greeting; service := qa |}.

(** *** The cell that asks one question outside the chat

    [response = agent_runtime_client.retrieve_and_generate(input=..., ...)]
    with no [sessionId], then [print(response['output']['text'])].  Nothing
    is caught and the ['sessionId'] of the response is not kept. *)
Definition ask_once (question : string) : M unit :=
  response <- call {| req_sessionId := None;
                      req_input_text := question;
                      req_type := "KNOWLEDGE_BASE";
                      req_knowledgeBaseId := knowledgebase_id;
                      req_modelArn := claude_v2_model_arn |} ;;
  print (output_text response).

(** *** Reading a conversation *)

(** The lines that reach the generation branch of [chat]: those that pass
    neither the quit test nor stop at [len(prompt) > 0]. *)
Definition is_prompt (line : string) : bool :=
  negb (is_quit line) && (0 <? String.length line)%nat.

Definition prompts (lines : list string) : list string :=
  List.filter is_prompt lines.

(** The part of a request that is the same in both branches of
    [if self.session_id:]. *)
Definition configured (req : request) : Prop :=
  req_type req = "KNOWLEDGE_BASE"
  /\ req_knowledgeBaseId req = knowledgebase_id
  /\ req_modelArn req = claude_v2_model_arn.

(** A label after [thinking.value = ""], and one still as it was created. *)
Definition blank_label : Label := {| label_value := "" |}.

Definition thinking_label : Label := {| label_value := "Thinking..." |}.

(** The label a generation turn leaves behind. *)
Definition label_after (res : outcome) : Label :=
  if handled res then blank_label else thinking_label.

(** How many calls of a trace returned or raised what is caught. *)
Definition handled_calls (l : list event) : nat :=
  length (List.filter handled (outcomes l)).

(** The widgets of a conversation: the last text box and the last button are
    the ones the object refers to and are enabled; every earlier one is
    disabled; every button runs [chat] once. *)
Definition one_active_box (w : world) : Prop :=
  exists old_texts cur_text old_buttons cur_button,
    texts w = old_texts ++ [cur_text]
    /\ buttons w = old_buttons ++ [cur_button]
    /\ name (self w) = Some (length old_texts)
    /\ b (self w) = Some (length old_buttons)
    /\ Forall (fun t => text_disabled t = true) old_texts
    /\ text_disabled cur_text = false
    /\ Forall (fun x => button_disabled x = true) old_buttons
    /\ button_disabled cur_button = false
    /\ Forall (fun x => button_on_click x = [self_chat]) (buttons w).

(** *** Facts about traces *)

Lemma stored_after_app sid l1 l2 :
  stored_after sid (l1 ++ l2) = stored_after (stored_after sid l1) l2.
Proof.
  revert sid; induction l1 as [|ev l1 IH]; intros sid; [reflexivity|].
  destruct ev as [| | | |req [r|e]|]; cbn; apply IH.
Qed.

Lemma threaded_app sid l1 l2 :
  threaded sid (l1 ++ l2) <->
  threaded sid l1 /\ threaded (stored_after sid l1) l2.
Proof.
  revert sid; induction l1 as [|ev l1 IH]; intros sid; cbn; [tauto|].
  destruct ev as [| | | |req [r|e]|]; cbn; rewrite ?IH; tauto.
Qed.

Lemma stored_after_no_call sid l :
  calls l = [] -> stored_after sid l = sid.
Proof.
  induction l as [|ev l IH]; [reflexivity|].
  destruct ev; cbn; try discriminate; exact IH.
Qed.

Lemma threaded_no_call sid l :
  calls l = [] -> threaded sid l.
Proof.
  induction l as [|ev l IH]; [intros; exact I|].
  destruct ev; cbn; try discriminate; exact IH.
Qed.

Lemma calls_app l1 l2 : calls (l1 ++ l2) = calls l1 ++ calls l2.
Proof. apply List.filter_app. Qed.

Lemma truthy_build_request sid prompt :
  req_sessionId (build_request sid prompt) = sent_session sid.
Proof. unfold build_request, sent_session; destruct (truthy sid); reflexivity. Qed.

(** *** One turn, case by case *)

Lemma ready_inv w :
  ready w = true ->
  exists n x t bt,
    name (self w) = Some n /\ b (self w) = Some x
    /\ texts w !! n = Some t /\ text_disabled t = false
    /\ buttons w !! x = Some bt /\ button_disabled bt = false
    /\ button_on_click bt = [self_chat].
Proof.
  unfold ready.
  destruct (name (self w)) as [n|]; [|discriminate].
  destruct (b (self w)) as [x|]; [|discriminate].
  destruct (texts w !! n) as [t|] eqn:Ht; [|discriminate].
  destruct (buttons w !! x) as [bt|] eqn:Hb; [|discriminate].
  destruct (text_disabled t) eqn:Htd; [discriminate|].
  destruct (button_disabled bt) eqn:Hbd; [discriminate|].
  destruct (button_on_click bt) as [|[] [|? ?]] eqn:Hbc; try discriminate.
  intros _. exists n, x, t, bt. repeat split; assumption.
Qed.

(** Symbolic execution of a turn: unfold the statements, then resolve the
    reads of the stores. *)
Ltac exec :=
  cbv [turn type_line press_send run_callbacks run_callback chat
       generate show_input_box try_except call bind ret raise deref
       get_self put_self set_name set_b set_session_id read_text
       read_button write_text write_button disable_text disable_button
       on_click new_text new_button new_label set_label_value put_texts
       put_buttons put_labels print emit start_chat dispatch is_Exception
       self texts buttons labels log service name b session_id
       text_disabled text_value text_description text_placeholder
       button_disabled button_on_click button_description].

Ltac in_range :=
  rewrite ?length_app, ?length_insert; cbn;
  first [ eapply lookup_lt_Some; eassumption | lia ].

Ltac look :=
  first
    [ rewrite list_lookup_insert_eq by in_range
    | rewrite list_lookup_middle by (rewrite ?length_insert; reflexivity) ].

Ltac open_world w n x Ht Hb :=
  let H := fresh "H" in
  intros H; apply ready_inv in H;
  destruct H as (n & x & [? ? ? ?] & [? ? ?] & H);
  destruct w as [[? ? ?] ? ? ? ? ?];
  cbn in H; destruct H as (-> & -> & Ht & -> & Hb & -> & ->).

Lemma turn_quit w line :
  ready w = true -> is_quit line = true ->
  exists w',
    turn line w = (Ok tt, w')
    /\ log w' = log w ++ [Printed "Thank you , that was a nice chat !!"]
    /\ self w' = self w
    /\ service w' = service w
    /\ ready w' = true.
Proof.
  open_world w n x Ht Hb. intros Hq.
  exec. rewrite Ht. exec. rewrite Hb. exec. look. exec. rewrite Hq.
  eexists; split; [reflexivity|].
  repeat split. unfold ready; exec. look. rewrite Hb. reflexivity.
Qed.

Lemma turn_empty w :
  ready w = true ->
  exists w',
    turn "" w = (Ok tt, w')
    /\ log w' = log w
    /\ self w' = self w
    /\ service w' = service w
    /\ buttons w' = buttons w
    /\ labels w' = labels w
    /\ ready w' = true.
Proof.
  open_world w n x Ht Hb.
  exec. rewrite Ht. exec. rewrite Hb. exec. look. exec.
  eexists; split; [reflexivity|].
  repeat split. unfold ready; exec. look. rewrite Hb. reflexivity.
Qed.

Lemma turn_generate w line :
  ready w = true -> is_quit line = false -> line <> "" ->
  let req := build_request (session_id (self w)) line in
  let res := fst (retrieve_and_generate req (service w)) in
  handled res = true ->
  exists w',
    turn line w = (Ok tt, w')
    /\ log w' = log w ++ DisplayedLabel (length (labels w))
                      :: Called req res
                      :: answer res
                      ++ [DisplayedBox (length (texts w)) (length (buttons w))]
    /\ session_id (self w') = kept (session_id (self w)) res
    /\ service w' = snd (retrieve_and_generate req (service w))
    /\ name (self w') = Some (length (texts w))
    /\ b (self w') = Some (length (buttons w))
    /\ texts w' !! length (texts w) = Some input_box
    /\ buttons w' !! length (buttons w) = Some send_button
    /\ ready w' = true.
Proof.
  open_world w n x Ht Hb. intros Hq Hne req res; subst req res.
  exec. rewrite Ht. exec. rewrite Hb. exec. look. exec. rewrite Hq.
  destruct line as [|c line']; [congruence|].
  cbn [String.length Nat.ltb Nat.leb].
  destruct (retrieve_and_generate _ _) as [[r|[cls msg|cls msg]] s'] eqn:E;
    cbn [fst handled is_Exception]; intros Hh; [| |discriminate Hh].
  all: repeat (exec; first [rewrite Hb | look]).
  all: eexists; split; [reflexivity|]; cbn [fst snd answer kept].
  all: rewrite ?length_insert.
  all: repeat split;
    first
      [ rewrite <- !app_assoc; reflexivity
      | apply list_lookup_middle; rewrite !length_insert; reflexivity
      | apply list_lookup_insert_eq; in_range
      | unfold ready; exec;
        rewrite list_lookup_middle by (rewrite !length_insert; reflexivity);
        rewrite list_lookup_insert_eq by in_range; reflexivity ].
Qed.

(** A turn whose call raises what [except Exception] does not catch: the
    exception leaves [chat] right after the call. *)
Lemma turn_escaped w line :
  ready w = true -> is_quit line = false -> line <> "" ->
  let req := build_request (session_id (self w)) line in
  let res := fst (retrieve_and_generate req (service w)) in
  handled res = false ->
  exists n t w',
    name (self w) = Some n
    /\ texts w !! n = Some t
    /\ turn line w = (Ok tt, w')
    /\ log w' = log w ++ DisplayedLabel (length (labels w))
                      :: Called req res
                      :: after_call res (length (texts w)) (length (buttons w))
    /\ self w' = self w
    /\ service w' = snd (retrieve_and_generate req (service w))
    /\ texts w' = <[n := {| text_description := text_description t;
                            text_placeholder := text_placeholder t;
                            text_value := line;
                            text_disabled := false |}]> (texts w)
    /\ buttons w' = buttons w
    /\ labels w' = labels w ++ [thinking_label]
    /\ ready w' = true.
Proof.
  open_world w n x Ht Hb. intros Hq Hne req res; subst req res.
  cbn [self session_id service]. intros Hh.
  match type of Ht with _ = Some ?t => exists n, t end.
  unfold after_call. rewrite Hh.
  exec. rewrite Ht. exec. rewrite Hb. exec. look. exec. rewrite Hq.
  destruct line as [|c line']; [congruence|].
  cbn [String.length Nat.ltb Nat.leb].
  destruct (retrieve_and_generate _ _) as [[r|[cls msg|cls msg]] s'] eqn:E;
    cbn [fst handled is_Exception] in Hh; try discriminate Hh.
  exec.
  eexists; do 3 (split; [reflexivity|]).
  split; [rewrite <- !app_assoc; reflexivity|].
  repeat split.
  unfold ready; exec. look. rewrite Hb. reflexivity.
Qed.

(** A turn that makes the call, however the call ends. *)
Lemma turn_prompt w line :
  ready w = true -> is_quit line = false -> line <> "" ->
  let req := build_request (session_id (self w)) line in
  let res := fst (retrieve_and_generate req (service w)) in
  exists w',
    turn line w = (Ok tt, w')
    /\ log w' = log w ++ DisplayedLabel (length (labels w))
                      :: Called req res
                      :: after_call res (length (texts w)) (length (buttons w))
    /\ session_id (self w') = kept (session_id (self w)) res
    /\ service w' = snd (retrieve_and_generate req (service w))
    /\ ready w' = true.
Proof.
  intros Hr Hq Hne req res.
  destruct (handled res) eqn:Hh.
  - destruct (turn_generate w line Hr Hq Hne Hh)
      as (w' & Ht & Hl & Hs & Hsv & _ & _ & _ & _ & Hr').
    exists w'. unfold after_call. fold req res in Hl, Hs, Hsv |- *.
    rewrite Hh. repeat split; assumption.
  - destruct (turn_escaped w line Hr Hq Hne Hh)
      as (n & t & w' & _ & _ & Ht & Hl & Hself & Hsv & _ & _ & _ & Hr').
    exists w'. fold req res in Hl, Hsv |- *. rewrite Hself.
    repeat split; try assumption.
    destruct res; [discriminate Hh | reflexivity].
Qed.

(** *** Any number of turns *)

Lemma calls_answer res : calls (answer res) = [].
Proof. destruct res; reflexivity. Qed.

Lemma calls_after_call res lt lb : calls (after_call res lt lb) = [].
Proof.
  unfold after_call. destruct (handled res).
  - rewrite calls_app, calls_answer. reflexivity.
  - destruct res; reflexivity.
Qed.

(** Whatever the line, a turn taken while a box is on display returns, keeps
    a box on display, and its calls carry the stored session identifier. *)
Lemma turn_spec w line :
  ready w = true ->
  exists w' evs,
    turn line w = (Ok tt, w')
    /\ log w' = log w ++ evs
    /\ threaded (session_id (self w)) evs
    /\ session_id (self w') = stored_after (session_id (self w)) evs
    /\ ready w' = true.
Proof.
  intros Hr.
  destruct (is_quit line) eqn:Hq.
  - destruct (turn_quit w line Hr Hq) as (w' & Ht & Hl & Hs & _ & Hr').
    exists w', [Printed "Thank you , that was a nice chat !!"].
    rewrite Hs. repeat split; try assumption.
  - destruct (String.eqb_spec line "") as [->|Hne].
    + destruct (turn_empty w Hr) as (w' & Ht & Hl & Hs & _ & _ & _ & Hr').
      exists w', []. rewrite Hs, app_nil_r. repeat split; assumption.
    + destruct (turn_prompt w line Hr Hq Hne) as (w' & Ht & Hl & Hs & _ & Hr').
      eexists w', _. split; [exact Ht|]. split; [exact Hl|].
      cbn [threaded stored_after]. repeat split.
      * apply truthy_build_request.
      * apply threaded_no_call, calls_after_call.
      * rewrite Hs.
        destruct (fst (retrieve_and_generate _ _)) as [r|e]; cbn [kept];
          symmetry; apply stored_after_no_call, calls_after_call.
      * exact Hr'.
Qed.

Lemma run_spec lines : forall w,
  ready w = true ->
  exists w' evs,
    run lines w = (Ok tt, w')
    /\ log w' = log w ++ evs
    /\ threaded (session_id (self w)) evs
    /\ session_id (self w') = stored_after (session_id (self w)) evs
    /\ ready w' = true.
Proof.
  induction lines as [|line rest IH]; intros w Hr.
  - exists w, []. rewrite app_nil_r. repeat split; assumption.
  - destruct (turn_spec w line Hr) as (w1 & evs1 & Ht & Hl1 & Hth1 & Hs1 & Hr1).
    destruct (IH w1 Hr1) as (w2 & evs2 & Hrun & Hl2 & Hth2 & Hs2 & Hr2).
    exists w2, (evs1 ++ evs2).
    cbn [run]. unfold bind at 1. rewrite Ht.
    split; [exact Hrun|].
    split; [rewrite Hl2, Hl1, app_assoc; reflexivity|].
    split; [apply threaded_app; split; [exact Hth1 | rewrite <- Hs1; exact Hth2]|].
    split; [rewrite stored_after_app, <- Hs1; exact Hs2 | exact Hr2].
Qed.

Lemma start_chat_init qa :
  start_chat (init qa) = (Ok tt, first_world qa).
Proof. reflexivity. Qed.

Lemma session_run qa lines :
  session qa lines = run lines (first_world qa).
Proof. reflexivity. Qed.

Lemma session_spec qa lines :
  exists w evs,
    session qa lines = (Ok tt, w)
    /\ log w = greeting ++ evs
    /\ threaded None evs
    /\ session_id (self w) = stored_after None evs
    /\ ready w = true.
Proof.
  rewrite session_run.
  destruct (run_spec lines (first_world qa) eq_refl)
    as (w & evs & Hrun & Hl & Hth & Hs & Hr).
  exists w, evs. repeat split; assumption.
Qed.

(** Every conversation is served to its last turn and ends with a box on
    display: the premise [ready] of the statements below holds at each point
    a user can act on. *)
Lemma session_is_ready qa lines :
  exists w, session qa lines = (Ok tt, w) /\ ready w = true.
Proof.
  destruct (session_spec qa lines) as (w & evs & Hsess & _ & _ & _ & Hr).
  exists w. split; assumption.
Qed.

(** *** The quit sentinel *)

Lemma is_quit_exact line :
  is_quit line = true <-> line = "q" \/ line = "Q" \/ line = "quit".
Proof.
  unfold is_quit. rewrite !orb_true_iff, !String.eqb_eq.
  split; [intros [[H|H]|H] | intros [H|[H|H]]]; subst; auto.
Qed.

(** C5.  When the line typed is exactly [q], [Q] or [quit], the turn returns
    after printing the farewell only: the generation call is not made (the
    trace gains no call and the service is left as it was), no new input box
    is displayed, and the fields of the object are untouched. *)
Theorem quit_turn_terminates w line :
  ready w = true ->
  line = "q" \/ line = "Q" \/ line = "quit" ->
  exists w',
    turn line w = (Ok tt, w')
    /\ log w' = log w ++ [Printed "Thank you , that was a nice chat !!"]
    /\ calls (log w') = calls (log w)
    /\ boxes (log w') = boxes (log w)
    /\ service w' = service w
    /\ self w' = self w.
Proof.
  intros Hr Hline. apply is_quit_exact in Hline.
  destruct (turn_quit w line Hr Hline) as (w' & Ht & Hl & Hs & Hsv & _).
  exists w'. rewrite Hl. unfold calls, boxes. rewrite !List.filter_app.
  cbn. rewrite !app_nil_r. repeat split; assumption.
Qed.


(** C3, amended.  When the generation call of a turn raises an instance [e]
    of [Exception], [chat] catches it and the turn returns normally: the
    error is printed, the answer line reads [AI: No answer], and a new, empty,
    enabled input box wired to [chat] is displayed, so the next line is
    accepted. *)
Theorem failed_call_is_reported w line e s' :
  ready w = true ->
  is_quit line = false ->
  line <> "" ->
  retrieve_and_generate (build_request (session_id (self w)) line) (service w)
    = (Raised e, s') ->
  is_Exception e = true ->
  exists w',
    turn line w = (Ok tt, w')
    /\ log w' = log w ++ [ DisplayedLabel (length (labels w));
                          Called (build_request (session_id (self w)) line)
                                 (Raised e);
                          Printed (str e);
                          Printed ("AI: " ++ "No answer");
                          DisplayedBox (length (texts w)) (length (buttons w)) ]
    /\ name (self w') = Some (length (texts w))
    /\ b (self w') = Some (length (buttons w))
    /\ texts w' !! length (texts w) = Some input_box
    /\ buttons w' !! length (buttons w) = Some send_button
    /\ ready w' = true.
Proof.
  intros Hr Hq Hne E He.
  assert (Hh : handled (fst (retrieve_and_generate
                 (build_request (session_id (self w)) line) (service w))) = true)
    by (rewrite E; exact He).
  destruct (turn_generate w line Hr Hq Hne Hh)
    as (w' & Ht & Hl & _ & _ & Hn & Hb & Htx & Hbt & Hr').
  rewrite E in Hl; cbn [fst answer] in Hl.
  exists w'. repeat split; assumption.
Qed.

(** C10.  [start_chat] on a new object returns normally, so the field
    [self.name], which holds [None], is never dereferenced; it makes no
    generation call (no call in the trace, no [Thinking...] label created, the
    service and the session identifier left alone); all it displays is the
    output area and the first input box, empty and enabled. *)
Theorem start_chat_shows_first_box qa :
  exists w,
    start_chat (init qa) = (Ok tt, w)
    /\ log w = [Printed "Let's chat!"; DisplayedOutput; DisplayedBox 0 0]
    /\ calls (log w) = []
    /\ service w = qa
    /\ session_id (self w) = None
    /\ name (self w) = Some 0
    /\ b (self w) = Some 0
    /\ texts w = [input_box]
    /\ buttons w = [send_button]
    /\ labels w = []
    /\ ready w = true.
Proof.
  exists (first_world qa). rewrite start_chat_init. repeat split.
Qed.

(** C4, amended.  Among the lines that match [q] or [quit] without regard to
    case, exactly [q], [Q] and [quit] end the turn with the farewell and no
    generation call; every other such line ([Quit], [QUIT], [qUiT], ...) is
    an ordinary prompt and is sent to the generation call. *)
Theorem quit_sentinel_is_exact w line :
  ready w = true ->
  quit_sentinel_ci line = true ->
  exists w',
    turn line w = (Ok tt, w')
    /\ ((line = "q" \/ line = "Q" \/ line = "quit")
        /\ log w' = log w ++ [Printed "Thank you , that was a nice chat !!"]
        \/
        ~ (line = "q" \/ line = "Q" \/ line = "quit")
        /\ exists res,
             log w' = log w ++ DisplayedLabel (length (labels w))
                            :: Called (build_request (session_id (self w)) line) res
                            :: after_call res (length (texts w))
                                             (length (buttons w))).
Proof.
  intros Hr Hci.
  destruct (is_quit line) eqn:Hq.
  - destruct (turn_quit w line Hr Hq) as (w' & Ht & Hl & _).
    exists w'. split; [exact Ht|]. left.
    split; [apply is_quit_exact; exact Hq | exact Hl].
  - assert (Hne : line <> "") by (intros ->; discriminate Hci).
    destruct (turn_prompt w line Hr Hq Hne) as (w' & Ht & Hl & _).
    exists w'. split; [exact Ht|]. right. split.
    + intros H. apply is_quit_exact in H. congruence.
    + eexists. exact Hl.
Qed.

(** *** The session identifier *)

Lemma stored_after_cases l : forall sid,
  (returned_calls l = [] /\ stored_after sid l = sid)
  \/ exists pre req r post,
       l = pre ++ Called req (Returned r) :: post
       /\ returned_calls post = []
       /\ stored_after sid l = Some (sessionId r).
Proof.
  induction l as [|ev l IH]; intros sid; [left; split; reflexivity|].
  assert (Hskip : is_returned ev = false -> stored_after sid (ev :: l) = stored_after sid l).
  { destruct ev as [| | | |req [r|e]|]; cbn; intros; (reflexivity || discriminate). }
  destruct ev as [s0| |r0|t0 b0|req [r|e]|e0].
  5: {
    right. destruct (IH (Some (sessionId r))) as [[Hn Hs]|(pre & req' & r' & post & -> & Hn & Hs)].
    - exists [], req, r, l. repeat split; assumption.
    - exists (Called req (Returned r) :: pre), req', r', post. repeat split; assumption. }
  all: rewrite Hskip by reflexivity.
  all: destruct (IH sid) as [[Hn Hs]|(pre & req' & r' & post & -> & Hn & Hs)];
    [ left; split; assumption
    | right; eexists (_ :: pre), req', r', post; repeat split; assumption ].
Qed.

Lemma greeting_then evs sid :
  stored_after sid (greeting ++ evs) = stored_after sid evs
  /\ (threaded sid (greeting ++ evs) <-> threaded sid evs).
Proof. split; [reflexivity | cbn; tauto]. Qed.

Lemma sent_session_cases sid :
  sent_session sid
  = match sid with
    | None => None
    | Some s => if String.eqb s "" then None else Some s
    end.
Proof.
  unfold sent_session, truthy. destruct sid as [s|]; [|reflexivity].
  destruct (String.eqb s ""); reflexivity.
Qed.

(** C1, amended.  Take any conversation and any generation call in its trace.
    If no call returned before it, its request omits the session field.
    Otherwise the most recent call that returned gave a session identifier;
    the request carries that identifier verbatim when it is not the empty
    string, and omits the session field when it is.  At the end of the
    conversation the stored identifier is the one most recently returned
    (and [None] when no call returned), whatever string it is. *)
Theorem session_id_is_threaded qa lines pre req res post :
  log (snd (session qa lines)) = pre ++ Called req res :: post ->
  session_id (self (snd (session qa lines)))
    = last_session (log (snd (session qa lines)))
  /\ match last_session pre with
     | None => req_sessionId req = None
     | Some sid => req_sessionId req
                   = if String.eqb sid "" then None else Some sid
     end.
Proof.
  destruct (session_spec qa lines) as (w & evs & Hsess & Hl & Hth & Hs & _).
  rewrite Hsess; cbn [snd]. intros Hsplit. split.
  - unfold last_session. rewrite Hl.
    rewrite (proj1 (greeting_then evs None)). exact Hs.
  - apply (proj2 (greeting_then evs None)) in Hth.
    rewrite <- Hl, Hsplit in Hth.
    apply threaded_app in Hth. destruct Hth as [_ [Hreq _]].
    rewrite sent_session_cases in Hreq. unfold last_session.
    destruct (stored_after None pre); exact Hreq.
Qed.


(** C8.  A new object stores [None].  After [start_chat] and any number of
    turns the conversation has returned normally and the stored session
    identifier is [None] with no call having returned so far, or it is the
    ['sessionId'] of the last call that returned.  A further turn changes it
    only through a call that returns: a quit line, an empty line and a call
    that raises leave it as it is. *)
Theorem session_id_invariant qa lines :
  session_id (self (init qa)) = None
  /\ exists w,
    session qa lines = (Ok tt, w)
    /\ ((session_id (self w) = None /\ returned_calls (log w) = [])
        \/ exists pre req r post,
             log w = pre ++ Called req (Returned r) :: post
             /\ returned_calls post = []
             /\ session_id (self w) = Some (sessionId r))
    /\ forall line,
         exists w',
           turn line w = (Ok tt, w')
           /\ session_id (self w')
              = if is_quit line then session_id (self w)
                else if String.eqb line "" then session_id (self w)
                else match fst (retrieve_and_generate
                                  (build_request (session_id (self w)) line)
                                  (service w)) with
                     | Returned r => Some (sessionId r)
                     | Raised _ => session_id (self w)
                     end.
Proof.
  split; [reflexivity|].
  destruct (session_spec qa lines) as (w & evs & Hsess & Hl & _ & Hs & Hr).
  exists w. split; [exact Hsess|]. split.
  - rewrite <- (proj1 (greeting_then evs None)), <- Hl in Hs.
    destruct (stored_after_cases (log w) None)
      as [[Hn Hst]|(pre & req & r & post & Hsplit & Hn & Hst)].
    + left. split; [congruence | exact Hn].
    + right. exists pre, req, r, post. repeat split; congruence.
  - intros line. destruct (is_quit line) eqn:Hq.
    + destruct (turn_quit w line Hr Hq) as (w' & Ht & _ & Hself & _).
      exists w'. rewrite Hself. split; [exact Ht | reflexivity].
    + destruct (String.eqb_spec line "") as [->|Hne].
      * destruct (turn_empty w Hr) as (w' & Ht & _ & Hself & _).
        exists w'. rewrite Hself. split; [exact Ht | reflexivity].
      * destruct (turn_prompt w line Hr Hq Hne) as (w' & Ht & _ & Hs' & _).
        exists w'. split; [exact Ht | exact Hs'].
Qed.

(** ** Beyond the claims: the widgets and the whole conversation *)

(** The stores after a turn that makes no call. *)
Lemma turn_idle_stores w line :
  ready w = true ->
  is_quit line = true \/ line = "" ->
  exists n t w',
    name (self w) = Some n
    /\ texts w !! n = Some t
    /\ turn line w = (Ok tt, w')
    /\ texts w' = <[n := {| text_description := text_description t;
                            text_placeholder := text_placeholder t;
                            text_value := line;
                            text_disabled := false |}]> (texts w)
    /\ buttons w' = buttons w
    /\ labels w' = labels w
    /\ self w' = self w
    /\ service w' = service w
    /\ log w' = log w ++ (if is_quit line
                           then [Printed "Thank you , that was a nice chat !!"]
                           else []).
Proof.
  open_world w n x Ht Hb. intros [Hq| ->].
  - eexists n, _, _. split; [reflexivity|]. split; [exact Ht|].
    exec. rewrite Ht. exec. rewrite Hb. exec. look. exec. rewrite Hq.
    repeat split.
  - eexists n, _, _. split; [reflexivity|]. split; [exact Ht|].
    exec. rewrite Ht. exec. rewrite Hb. exec. look. exec.
    cbn. rewrite app_nil_r. repeat split.
Qed.

(** The stores after a turn whose call returns or raises what is caught. *)
Lemma turn_generate_stores w line :
  ready w = true -> is_quit line = false -> line <> "" ->
  handled (fst (retrieve_and_generate
                  (build_request (session_id (self w)) line) (service w)))
    = true ->
  exists n x t bt w',
    name (self w) = Some n /\ b (self w) = Some x
    /\ texts w !! n = Some t /\ buttons w !! x = Some bt
    /\ turn line w = (Ok tt, w')
    /\ texts w' = <[n := {| text_description := text_description t;
                            text_placeholder := text_placeholder t;
                            text_value := line;
                            text_disabled := true |}]> (texts w)
                  ++ [input_box]
    /\ buttons w' = <[x := {| button_description := button_description bt;
                              button_disabled := true;
                              button_on_click := button_on_click bt |}]>
                      (buttons w)
                    ++ [send_button]
    /\ labels w' = labels w ++ [blank_label].
Proof.
  open_world w n x Ht Hb. intros Hq Hne.
  cbn [self session_id service]. intros Hh.
  match type of Ht with
  | _ = Some ?t =>
      match type of Hb with _ = Some ?bt => exists n, x, t, bt end
  end.
  exec. rewrite Ht. exec. rewrite Hb. exec. look. exec. rewrite Hq.
  destruct line as [|c line']; [congruence|].
  cbn [String.length Nat.ltb Nat.leb].
  destruct (retrieve_and_generate _ _) as [[r|[cls msg|cls msg]] s'] eqn:E;
    cbn [fst handled is_Exception] in Hh; try discriminate Hh.
  all: repeat (exec; first [rewrite Hb | look]).
  all: eexists; do 5 (split; [reflexivity|]).
  all: rewrite list_insert_insert_eq, !length_insert.
  all: rewrite !(insert_app_r_alt _ _ (length _))
         by (rewrite ?length_insert; lia).
  all: rewrite ?length_insert, !Nat.sub_diag.
  all: repeat split.
Qed.

Lemma same_turn line w w1 w2 :
  turn line w = (Ok tt, w1) -> turn line w = (Ok tt, w2) -> w1 = w2.
Proof. intros H1 H2. rewrite H1 in H2. congruence. Qed.

(** X1.  When the generation call of a turn returns, the turn prints the
    answer text of the response after [AI: ], stores the session identifier
    of the response, clears the [Thinking...] label it created, and displays
    a new, empty, enabled input box wired to [chat]. *)
Theorem answered_call_is_displayed w line r s' :
  ready w = true ->
  is_quit line = false ->
  line <> "" ->
  retrieve_and_generate (build_request (session_id (self w)) line) (service w)
    = (Returned r, s') ->
  exists w',
    turn line w = (Ok tt, w')
    /\ log w' = log w ++ [ DisplayedLabel (length (labels w));
                          Called (build_request (session_id (self w)) line)
                                 (Returned r);
                          Printed ("AI: " ++ output_text r);
                          DisplayedBox (length (texts w)) (length (buttons w)) ]
    /\ session_id (self w') = Some (sessionId r)
    /\ service w' = s'
    /\ labels w' = labels w ++ [blank_label]
    /\ texts w' !! length (texts w) = Some input_box
    /\ buttons w' !! length (buttons w) = Some send_button
    /\ ready w' = true.
Proof.
  intros Hr Hq Hne E.
  assert (Hh : handled (fst (retrieve_and_generate
                 (build_request (session_id (self w)) line) (service w))) = true)
    by (rewrite E; reflexivity).
  destruct (turn_generate w line Hr Hq Hne Hh)
    as (w' & Ht & Hl & Hs & Hsv & _ & _ & Htx & Hbt & Hr').
  destruct (turn_generate_stores w line Hr Hq Hne Hh)
    as (n & x & t & bt & w2 & _ & _ & _ & _ & Ht2 & _ & _ & Hlab).
  rewrite <- (same_turn _ _ _ _ Ht Ht2) in Hlab.
  rewrite E in Hl, Hs, Hsv; cbn [fst snd answer kept] in Hl, Hs, Hsv.
  exists w'. repeat split; assumption.
Qed.

(** X2.  A turn whose generation call returns, or raises an instance of
    [Exception], retires the box it was typed into: that text box keeps the
    line and is disabled, its button is disabled, every other existing widget
    is left as it was, and one text box and one button are added. *)
Theorem prompt_turn_retires_the_box w line n x t bt :
  ready w = true ->
  is_quit line = false ->
  line <> "" ->
  handled (fst (retrieve_and_generate
                  (build_request (session_id (self w)) line) (service w)))
    = true ->
  name (self w) = Some n ->
  b (self w) = Some x ->
  texts w !! n = Some t ->
  buttons w !! x = Some bt ->
  exists w',
    turn line w = (Ok tt, w')
    /\ texts w' !! n = Some {| text_description := text_description t;
                               text_placeholder := text_placeholder t;
                               text_value := line;
                               text_disabled := true |}
    /\ buttons w' !! x = Some {| button_description := button_description bt;
                                 button_disabled := true;
                                 button_on_click := button_on_click bt |}
    /\ (forall m, m <> n -> m < length (texts w) ->
                  texts w' !! m = texts w !! m)
    /\ (forall m, m <> x -> m < length (buttons w) ->
                  buttons w' !! m = buttons w !! m)
    /\ length (texts w') = S (length (texts w))
    /\ length (buttons w') = S (length (buttons w)).
Proof.
  intros Hr Hq Hne Hh Hn Hx Ht Hb.
  destruct (turn_generate_stores w line Hr Hq Hne Hh)
    as (n' & x' & t' & bt' & w' & Hn' & Hx' & Ht' & Hb' & Hturn & Htx & Hbt & _).
  assert (n' = n) by congruence. assert (x' = x) by congruence. subst n' x'.
  assert (t' = t) by congruence. assert (bt' = bt) by congruence. subst t' bt'.
  pose proof (lookup_lt_Some _ _ _ Ht) as Hnlt.
  pose proof (lookup_lt_Some _ _ _ Hb) as Hxlt.
  exists w'. split; [exact Hturn|]. rewrite Htx, Hbt.
  repeat split.
  - rewrite lookup_app_l by (rewrite length_insert; exact Hnlt).
    apply list_lookup_insert_eq; exact Hnlt.
  - rewrite lookup_app_l by (rewrite length_insert; exact Hxlt).
    apply list_lookup_insert_eq; exact Hxlt.
  - intros m Hm Hlt.
    rewrite lookup_app_l by (rewrite length_insert; exact Hlt).
    apply list_lookup_insert_ne; congruence.
  - intros m Hm Hlt.
    rewrite lookup_app_l by (rewrite length_insert; exact Hlt).
    apply list_lookup_insert_ne; congruence.
  - rewrite length_app, length_insert; cbn; lia.
  - rewrite length_app, length_insert; cbn; lia.
Qed.


(** *** One call per prompt *)

Lemma requests_app l1 l2 : requests (l1 ++ l2) = requests l1 ++ requests l2.
Proof. apply List.flat_map_app. Qed.

Lemma requests_after_call res lt lb : requests (after_call res lt lb) = [].
Proof.
  unfold after_call. destruct (handled res).
  - rewrite requests_app. destruct res; reflexivity.
  - destruct res; reflexivity.
Qed.

Lemma build_request_fields sid prompt :
  req_input_text (build_request sid prompt) = prompt
  /\ req_type (build_request sid prompt) = "KNOWLEDGE_BASE"
  /\ req_knowledgeBaseId (build_request sid prompt) = knowledgebase_id
  /\ req_modelArn (build_request sid prompt) = claude_v2_model_arn.
Proof. unfold build_request; destruct (truthy sid); repeat split. Qed.

Lemma is_prompt_cases line :
  (is_quit line = true /\ is_prompt line = false)
  \/ (line = "" /\ is_prompt line = false)
  \/ (is_quit line = false /\ line <> "" /\ is_prompt line = true).
Proof.
  unfold is_prompt. destruct (is_quit line) eqn:Hq; [left; split; reflexivity|].
  destruct line as [|c line']; [right; left; split; reflexivity|].
  right; right. repeat split. discriminate.
Qed.

Lemma turn_requests w line :
  ready w = true ->
  exists w' evs,
    turn line w = (Ok tt, w')
    /\ log w' = log w ++ evs
    /\ List.map req_input_text (requests evs) = prompts [line]
    /\ Forall configured (requests evs)
    /\ ready w' = true.
Proof.
  intros Hr. unfold prompts; cbn [List.filter].
  destruct (is_prompt_cases line) as [[Hq ->]|[[-> ->]|(Hq & Hne & ->)]].
  - destruct (turn_quit w line Hr Hq) as (w' & Ht & Hl & _ & _ & Hr').
    eexists w', _. split; [exact Ht|]. split; [exact Hl|].
    split; [reflexivity|]. split; [constructor | exact Hr'].
  - destruct (turn_empty w Hr) as (w' & Ht & Hl & _ & _ & _ & _ & Hr').
    exists w', []. rewrite app_nil_r. split; [exact Ht|]. split; [exact Hl|].
    split; [reflexivity|]. split; [constructor | exact Hr'].
  - destruct (turn_prompt w line Hr Hq Hne) as (w' & Ht & Hl & _ & _ & Hr').
    eexists w', _. split; [exact Ht|]. split; [exact Hl|].
    cbn [requests List.flat_map app].
    change (List.flat_map _ (?l)) with (requests l).
    rewrite requests_after_call. cbn [List.map].
    destruct (build_request_fields (session_id (self w)) line) as (H1 & H2 & H3 & H4).
    rewrite H1. split; [reflexivity|]. split; [|exact Hr'].
    repeat constructor; assumption.
Qed.

Lemma run_requests lines : forall w,
  ready w = true ->
  exists w' evs,
    run lines w = (Ok tt, w')
    /\ log w' = log w ++ evs
    /\ List.map req_input_text (requests evs) = prompts lines
    /\ Forall configured (requests evs).
Proof.
  induction lines as [|line rest IH]; intros w Hr.
  - exists w, []. rewrite app_nil_r. repeat split. constructor.
  - destruct (turn_requests w line Hr) as (w1 & evs1 & Ht & Hl1 & Hm1 & Hc1 & Hr1).
    destruct (IH w1 Hr1) as (w2 & evs2 & Hrun & Hl2 & Hm2 & Hc2).
    exists w2, (evs1 ++ evs2).
    cbn [run]. unfold bind at 1. rewrite Ht.
    split; [exact Hrun|].
    split; [rewrite Hl2, Hl1, app_assoc; reflexivity|].
    rewrite requests_app, List.map_app, Hm1, Hm2. split.
    + change (line :: rest) with ([line] ++ rest).
      unfold prompts. rewrite List.filter_app. reflexivity.
    + apply Forall_app; split; assumption.
Qed.

(** X4.  In any conversation the generation calls are exactly the lines that
    are neither empty nor one of [q], [Q], [quit]: one call per such line, in
    the order typed, with the line as its input text unchanged (nothing is
    trimmed or retried), and every request names the knowledge base and the
    model of the notebook. *)
Theorem one_call_per_prompt qa lines :
  exists w,
    session qa lines = (Ok tt, w)
    /\ List.map req_input_text (requests (log w)) = prompts lines
    /\ Forall (fun req => req_type req = "KNOWLEDGE_BASE"
                          /\ req_knowledgeBaseId req = knowledgebase_id
                          /\ req_modelArn req = claude_v2_model_arn)
              (requests (log w)).
Proof.
  rewrite session_run.
  destruct (run_requests lines (first_world qa) eq_refl)
    as (w & evs & Hrun & Hl & Hm & Hc).
  exists w. split; [exact Hrun|]. rewrite Hl.
  change (log (first_world qa)) with greeting.
  rewrite requests_app. cbn [greeting requests List.flat_map app].
  split; [exact Hm | exact Hc].
Qed.

(** *** The widgets of a conversation *)

Lemma one_active_box_ready w : one_active_box w -> ready w = true.
Proof.
  intros (ot & ct & ob & cb & Ht & Hb & Hn & Hx & _ & Hct & _ & Hcb & Hclick).
  unfold ready. rewrite Hn, Hx, Ht, Hb.
  rewrite !list_lookup_middle by reflexivity.
  rewrite Hb in Hclick. apply Forall_app in Hclick.
  destruct Hclick as [_ Hclick]. inversion Hclick as [|? ? Hc _]; subst.
  rewrite Hct, Hcb, Hc. reflexivity.
Qed.

Lemma boxes_app l1 l2 : boxes (l1 ++ l2) = boxes l1 ++ boxes l2.
Proof. apply List.filter_app. Qed.

Lemma boxes_answer res : boxes (answer res) = [].
Proof. destruct res; reflexivity. Qed.

Lemma outcomes_app l1 l2 : outcomes (l1 ++ l2) = outcomes l1 ++ outcomes l2.
Proof. apply List.flat_map_app. Qed.

Lemma outcomes_after_call res lt lb : outcomes (after_call res lt lb) = [].
Proof.
  unfold after_call. destruct (handled res).
  - rewrite outcomes_app. destruct res; reflexivity.
  - destruct res; reflexivity.
Qed.

Lemma handled_calls_app l1 l2 :
  handled_calls (l1 ++ l2) = handled_calls l1 + handled_calls l2.
Proof.
  unfold handled_calls.
  rewrite outcomes_app, List.filter_app, length_app. reflexivity.
Qed.

Lemma length_outcomes l : length (outcomes l) = length (requests l).
Proof.
  induction l as [|ev l IH]; [reflexivity|].
  destruct ev; cbn; auto.
Qed.

Lemma map_seq_from (f : nat -> event) a n :
  List.map f (List.seq a n) = List.map (fun i => f (a + i)) (List.seq 0 n).
Proof.
  revert a; induction n as [|n IH]; intros a; [reflexivity|].
  cbn [List.seq List.map]. rewrite Nat.add_0_r. f_equal.
  rewrite (IH (S a)), <- List.seq_shift, List.map_map.
  apply List.map_ext. intros i. f_equal. lia.
Qed.

(** One turn and the widgets: the boxes, buttons and labels it adds follow
    from how its call ended, if it made one. *)
Lemma turn_widgets w line :
  one_active_box w ->
  exists w' evs,
    turn line w = (Ok tt, w')
    /\ log w' = log w ++ evs
    /\ one_active_box w'
    /\ length (texts w') = length (texts w) + handled_calls evs
    /\ length (buttons w') = length (buttons w) + handled_calls evs
    /\ labels w' = labels w ++ List.map label_after (outcomes evs)
    /\ boxes evs
       = List.map (fun i => DisplayedBox (length (texts w) + i)
                                         (length (buttons w) + i))
                  (List.seq 0 (handled_calls evs)).
Proof.
  intros Hbox. pose proof (one_active_box_ready w Hbox) as Hr.
  destruct Hbox as (ot & ct & ob & cb & Ht & Hb & Hn & Hx & Hot & Hct & Hob & Hcb & Hclick).
  assert (Hsame : forall w' line',
            name (self w) = Some (length ot) ->
            texts w' = <[length ot := {| text_description := text_description ct;
                                         text_placeholder := text_placeholder ct;
                                         text_value := line';
                                         text_disabled := false |}]> (texts w) ->
            buttons w' = buttons w -> self w' = self w ->
            one_active_box w' /\ length (texts w') = length (texts w)).
  { intros w' line' _ Htx Hbt Hself.
    rewrite Ht in Htx.
    rewrite insert_app_r_alt, Nat.sub_diag in Htx by lia. cbn in Htx.
    split; [|rewrite Htx, Ht, !length_app; reflexivity].
    eexists ot, _, ob, cb. rewrite Hself, Hbt.
    repeat split; try eassumption. reflexivity. }
  destruct (is_prompt_cases line) as [[Hq _]|[[-> _]|(Hq & Hne & _)]].
  - destruct (turn_idle_stores w line Hr (or_introl Hq))
      as (n & t & w' & Hn' & Ht' & Hturn & Htx & Hbt & Hlab & Hself & _ & Hl).
    assert (n = length ot) by congruence; subst n.
    rewrite Ht, list_lookup_middle in Ht' by reflexivity. injection Ht' as <-.
    destruct (Hsame w' line Hn Htx Hbt Hself) as [Hbox' Hlen].
    rewrite Hq in Hl.
    eexists w', _. split; [exact Hturn|]. split; [exact Hl|].
    split; [exact Hbox'|]. cbn. rewrite Hlen, Hbt, Hlab, app_nil_r, !Nat.add_0_r.
    repeat split.
  - destruct (turn_idle_stores w "" Hr (or_intror eq_refl))
      as (n & t & w' & Hn' & Ht' & Hturn & Htx & Hbt & Hlab & Hself & _ & Hl).
    assert (n = length ot) by congruence; subst n.
    rewrite Ht, list_lookup_middle in Ht' by reflexivity. injection Ht' as <-.
    destruct (Hsame w' "" Hn Htx Hbt Hself) as [Hbox' Hlen].
    cbn in Hl.
    eexists w', _. split; [exact Hturn|]. split; [exact Hl|].
    split; [exact Hbox'|]. cbn. rewrite Hlen, Hbt, Hlab, app_nil_r, !Nat.add_0_r.
    repeat split.
  - destruct (handled (fst (retrieve_and_generate
                (build_request (session_id (self w)) line) (service w)))) eqn:Hh.
    + destruct (turn_generate w line Hr Hq Hne Hh)
        as (w' & Hturn & Hl & _ & _ & Hn' & Hx' & _).
      destruct (turn_generate_stores w line Hr Hq Hne Hh)
        as (n & x & t & bt & w2 & Hn2 & Hx2 & Ht2 & Hb2 & Hturn2 & Htx & Hbt & Hlab).
      rewrite <- (same_turn _ _ _ _ Hturn Hturn2) in Htx, Hbt, Hlab.
      assert (n = length ot) by congruence; subst n.
      assert (x = length ob) by congruence; subst x.
      rewrite Hb, list_lookup_middle in Hb2 by reflexivity.
      injection Hb2 as <-.
      rewrite Ht in Htx. rewrite Hb in Hbt.
      rewrite insert_app_r_alt, Nat.sub_diag in Htx by lia.
      rewrite insert_app_r_alt, Nat.sub_diag in Hbt by lia.
      cbn in Htx, Hbt.
      rewrite Hb in Hclick. apply Forall_app in Hclick.
      destruct Hclick as [Hclick_old Hclick_cur].
      inversion Hclick_cur as [|? ? Hc _]; subst.
      eexists w', _. split; [exact Hturn|]. split; [exact Hl|]. split.
      * eexists _, input_box, _, send_button.
        split; [exact Htx|]. split; [exact Hbt|].
        rewrite Hn', Hx', Ht, Hb, !length_app. cbn [length].
        repeat split.
        -- apply Forall_app; split; [exact Hot | repeat constructor].
        -- apply Forall_app; split; [exact Hob | repeat constructor].
        -- rewrite Hbt. apply Forall_app; split; [|repeat constructor].
           apply Forall_app; split; [exact Hclick_old | repeat constructor; exact Hc].
      * unfold handled_calls.
        cbn [outcomes List.flat_map app].
        change (List.flat_map _ (?l)) with (outcomes l).
        rewrite outcomes_app. cbn [outcomes List.flat_map app].
        assert (Hnone : outcomes (answer (fst (retrieve_and_generate
                   (build_request (session_id (self w)) line) (service w)))) = [])
          by (destruct (fst _); reflexivity).
        rewrite Hnone. cbn [app List.filter List.map]. rewrite Hh.
        cbn [length List.seq List.map]. unfold label_after. rewrite Hh.
        rewrite Htx, Hbt, Ht, Hb, !length_app. cbn [length].
        rewrite !Nat.add_0_r.
        repeat split; try lia; [exact Hlab|].
        cbn [boxes List.filter is_box]. change (List.filter is_box ?l) with (boxes l).
        rewrite boxes_app, boxes_answer. reflexivity.
    + destruct (turn_escaped w line Hr Hq Hne Hh)
        as (n & t & w' & Hn' & Ht' & Hturn & Hl & Hself & _ & Htx & Hbt & Hlab & _).
      assert (n = length ot) by congruence; subst n.
      rewrite Ht, list_lookup_middle in Ht' by reflexivity. injection Ht' as <-.
      destruct (Hsame w' line Hn Htx Hbt Hself) as [Hbox' Hlen].
      eexists w', _. split; [exact Hturn|]. split; [exact Hl|].
      split; [exact Hbox'|].
      unfold handled_calls, after_call. rewrite Hh.
      destruct (fst (retrieve_and_generate _ _)) as [r|e] eqn:Hres;
        [discriminate Hh|].
      cbn [outcomes List.flat_map app List.filter List.map]. rewrite Hh.
      cbn [length List.seq List.map]. unfold label_after. rewrite Hh.
      rewrite Hlen, Hbt, Hlab, !Nat.add_0_r. repeat split.
Qed.

Lemma run_widgets lines : forall w,
  one_active_box w ->
  exists w' evs,
    run lines w = (Ok tt, w')
    /\ log w' = log w ++ evs
    /\ one_active_box w'
    /\ length (texts w') = length (texts w) + handled_calls evs
    /\ length (buttons w') = length (buttons w) + handled_calls evs
    /\ labels w' = labels w ++ List.map label_after (outcomes evs)
    /\ boxes evs
       = List.map (fun i => DisplayedBox (length (texts w) + i)
                                         (length (buttons w) + i))
                  (List.seq 0 (handled_calls evs)).
Proof.
  induction lines as [|line rest IH]; intros w Hbox.
  - exists w, []. cbn. rewrite !app_nil_r, !Nat.add_0_r. repeat split. exact Hbox.
  - destruct (turn_widgets w line Hbox)
      as (w1 & evs1 & Ht & Hl1 & Hbox1 & Htx1 & Hbt1 & Hlab1 & Hbx1).
    destruct (IH w1 Hbox1)
      as (w2 & evs2 & Hrun & Hl2 & Hbox2 & Htx2 & Hbt2 & Hlab2 & Hbx2).
    exists w2, (evs1 ++ evs2).
    cbn [run]. unfold bind at 1. rewrite Ht.
    split; [exact Hrun|].
    split; [rewrite Hl2, Hl1, app_assoc; reflexivity|].
    split; [exact Hbox2|].
    rewrite handled_calls_app, outcomes_app, List.map_app, boxes_app.
    rewrite Htx2, Hbt2, Hlab2, Hbx2, Hbx1, Htx1, Hbt1, Hlab1.
    repeat split; try lia.
    + rewrite app_assoc. reflexivity.
    + rewrite List.seq_app, List.map_app. f_equal.
      rewrite (map_seq_from _ (0 + handled_calls evs1)).
      apply List.map_ext. intros i. f_equal; lia.
Qed.

Lemma first_world_one_active_box qa : one_active_box (first_world qa).
Proof.
  exists [], input_box, [], send_button. repeat split; repeat constructor.
Qed.

(** X5.  At the end of any conversation there is one label per prompt, in
    the order of the calls: blank where the call returned or raised an
    instance of [Exception], and still reading [Thinking...] where the call
    raised anything else. *)
Theorem thinking_labels_follow_the_calls qa lines :
  exists w,
    session qa lines = (Ok tt, w)
    /\ length (labels w) = length (prompts lines)
    /\ labels w
       = List.map (fun res => if handled res then blank_label else thinking_label)
                  (outcomes (log w)).
Proof.
  rewrite session_run.
  destruct (run_widgets lines _ (first_world_one_active_box qa))
    as (w & evs & Hrun & Hl & _ & _ & _ & Hlab & _).
  destruct (run_requests lines (first_world qa) eq_refl)
    as (w2 & evs2 & Hrun2 & Hl2 & Hm & _).
  rewrite Hrun in Hrun2. injection Hrun2 as <-.
  rewrite Hl in Hl2. apply app_inv_head in Hl2. subst evs2.
  exists w. split; [exact Hrun|].
  assert (Hout : outcomes (log w) = outcomes evs)
    by (rewrite Hl, outcomes_app; reflexivity).
  rewrite Hout. split; [|exact Hlab].
  rewrite Hlab. cbn [labels first_world app].
  rewrite List.length_map, length_outcomes, <- Hm, List.length_map. reflexivity.
Qed.

(** X6.  At the end of any conversation there is one text box and one button
    per call that returned or raised an instance of [Exception], plus the
    first pair; the object refers to the last of each, which are enabled;
    every earlier text box and button is disabled; and a click on any button
    runs [chat] exactly once. *)
Theorem conversation_has_one_active_box qa lines :
  exists w,
    session qa lines = (Ok tt, w)
    /\ length (texts w) = S (handled_calls (log w))
    /\ length (buttons w) = S (handled_calls (log w))
    /\ exists old_texts cur_text old_buttons cur_button,
         texts w = old_texts ++ [cur_text]
         /\ buttons w = old_buttons ++ [cur_button]
         /\ name (self w) = Some (length old_texts)
         /\ b (self w) = Some (length old_buttons)
         /\ Forall (fun t => text_disabled t = true) old_texts
         /\ text_disabled cur_text = false
         /\ Forall (fun x => button_disabled x = true) old_buttons
         /\ button_disabled cur_button = false
         /\ Forall (fun x => button_on_click x = [self_chat]) (buttons w).
Proof.
  rewrite session_run.
  destruct (run_widgets lines _ (first_world_one_active_box qa))
    as (w & evs & Hrun & Hl & Hbox' & Htx & Hbt & _).
  exists w. split; [exact Hrun|].
  assert (Hh : handled_calls (log w) = handled_calls evs)
    by (rewrite Hl, handled_calls_app; reflexivity).
  rewrite Hh. split; [exact Htx|]. split; [exact Hbt|].
  exact Hbox'.
Qed.

(** X7.  The input boxes displayed in a conversation are the first one and
    one more after each call that returned or raised an instance of
    [Exception], never one after an empty line, a quit line or a call whose
    exception was not caught; the i-th box displayed pairs the i-th text box
    with the i-th button. *)
Theorem one_box_per_finished_call qa lines :
  exists w,
    session qa lines = (Ok tt, w)
    /\ boxes (log w)
       = List.map (fun i => DisplayedBox i i)
                  (List.seq 0 (S (handled_calls (log w)))).
Proof.
  rewrite session_run.
  destruct (run_widgets lines _ (first_world_one_active_box qa))
    as (w & evs & Hrun & Hl & _ & _ & _ & _ & Hbx).
  exists w. split; [exact Hrun|].
  assert (Hh : handled_calls (log w) = handled_calls evs)
    by (rewrite Hl, handled_calls_app; reflexivity).
  rewrite Hh, Hl, boxes_app, Hbx. cbn [List.seq List.map].
  rewrite <- List.seq_shift, List.map_map. reflexivity.
Qed.

(** *** An exception that is not caught *)

Lemma chat_escapes w line e s' :
  ready w = true -> is_quit line = false -> line <> "" ->
  retrieve_and_generate (build_request (session_id (self w)) line) (service w)
    = (Raised e, s') ->
  is_Exception e = false ->
  exists w1 w2,
    type_line line w = (Ok tt, w1)
    /\ chat w1 = (Raise e, w2)
    /\ log w2 = log w ++ [ DisplayedLabel (length (labels w));
                          Called (build_request (session_id (self w)) line)
                                 (Raised e) ].
Proof.
  open_world w n x Ht Hb. intros Hq Hne.
  cbn [self session_id service]. intros E He.
  destruct e as [cls msg|cls msg]; [discriminate He|].
  destruct line as [|c line']; [congruence|].
  eexists. eexists. split.
  - unfold type_line. exec. rewrite Ht. exec. reflexivity.
  - exec. look. exec. rewrite Hq. cbn [String.length Nat.ltb Nat.leb].
    rewrite E. exec. split; [reflexivity|].
    rewrite <- app_assoc. reflexivity.
Qed.

(** X11.  When the generation call of a turn raises an exception that is not
    an instance of [Exception], [chat] does not catch it: [chat] itself
    raises it right after the call, so the error and the answer line are not
    printed, the label still reads [Thinking...], the session identifier and
    the other fields are as before, no widget is disabled or added and no box
    is displayed; the box that was typed into stays in use. *)
Theorem uncaught_exception_leaves_the_box_in_use w line e s' :
  ready w = true ->
  is_quit line = false ->
  line <> "" ->
  retrieve_and_generate (build_request (session_id (self w)) line) (service w)
    = (Raised e, s') ->
  is_Exception e = false ->
  (exists w1 w2,
     type_line line w = (Ok tt, w1)
     /\ chat w1 = (Raise e, w2)
     /\ log w2 = log w ++ [ DisplayedLabel (length (labels w));
                           Called (build_request (session_id (self w)) line)
                                  (Raised e) ])
  /\ exists w',
       turn line w = (Ok tt, w')
       /\ log w' = log w ++ [ DisplayedLabel (length (labels w));
                             Called (build_request (session_id (self w)) line)
                                    (Raised e);
                             Escaped e ]
       /\ self w' = self w
       /\ service w' = s'
       /\ labels w' = labels w ++ [thinking_label]
       /\ buttons w' = buttons w
       /\ length (texts w') = length (texts w)
       /\ ready w' = true.
Proof.
  intros Hr Hq Hne E He. split; [exact (chat_escapes w line e s' Hr Hq Hne E He)|].
  assert (Hh : handled (fst (retrieve_and_generate
                 (build_request (session_id (self w)) line) (service w))) = false)
    by (rewrite E; exact He).
  destruct (turn_escaped w line Hr Hq Hne Hh)
    as (n & t & w' & _ & _ & Ht & Hl & Hself & Hsv & Htx & Hbt & Hlab & Hr').
  unfold after_call in Hl. rewrite Hh in Hl. rewrite E in Hl, Hsv.
  cbn [fst snd] in Hl, Hsv.
  exists w'. rewrite Htx, length_insert. repeat split; assumption.
Qed.

(** *** The question asked outside the chat *)

(** X9.  The cell that asks one question does not handle an error of the
    service: the exception leaves the cell, nothing is printed, and cells run
    after it in one go are not reached.  When the service answers, the answer
    text is printed, and the chat started afterwards on the same client does
    not continue that exchange: the session identifier of the answer is
    dropped, so the session fields of the chat's calls follow from the chat's
    own answers alone and its first call has none. *)
Theorem chat_does_not_continue_ask_once question qa lines :
  let asked := {| req_sessionId := None;
                  req_input_text := question;
                  req_type := "KNOWLEDGE_BASE";
                  req_knowledgeBaseId := knowledgebase_id;
                  req_modelArn := claude_v2_model_arn |} in
  (forall e s',
     retrieve_and_generate asked qa = (Raised e, s') ->
     exists w,
       (ask_once question ;;; start_chat ;;; run lines) (init qa) = (Raise e, w)
       /\ log w = [Called asked (Raised e)]
       /\ service w = s')
  /\ (forall r s',
        retrieve_and_generate asked qa = (Returned r, s') ->
        exists w evs,
          (ask_once question ;;; start_chat ;;; run lines) (init qa) = (Ok tt, w)
          /\ log w = [Called asked (Returned r); Printed (output_text r)]
                     ++ greeting ++ evs
          /\ session_id (self w) = last_session evs
          /\ forall pre req res post,
               evs = pre ++ Called req res :: post ->
               match last_session pre with
               | None => req_sessionId req = None
               | Some sid => req_sessionId req
                             = if String.eqb sid "" then None else Some sid
               end).
Proof.
  intros asked. split.
  - intros e s' E. eexists. split; [|split].
    + unfold bind at 1. unfold ask_once, bind at 1, call.
      cbn [service init]. fold asked. rewrite E. reflexivity.
    + reflexivity.
    + reflexivity.
  - intros r s' E.
    set (w1 := {| self := {| name := Some 0; b := Some 0; session_id := None |};
                  texts := [input_box]; buttons := [send_button]; labels := [];
                  log := [Called asked (Returned r); Printed (output_text r)]
                         ++ greeting;
                  service := s' |}).
    assert (H1 : (ask_once question ;;; start_chat ;;; run lines) (init qa)
                 = run lines w1).
    { unfold bind at 1. unfold ask_once, bind at 1, call.
      cbn [service init]. fold asked. rewrite E. reflexivity. }
    destruct (run_spec lines w1 eq_refl) as (w & evs & Hrun & Hl & Hth & Hs & _).
    exists w, evs. rewrite H1. split; [exact Hrun|].
    split; [rewrite Hl; reflexivity|].
    split; [exact Hs|].
    intros pre req res post ->.
    apply threaded_app in Hth. destruct Hth as [_ [Hreq _]].
    rewrite sent_session_cases in Hreq. unfold last_session.
    change (session_id (self w1)) with (@None string) in Hreq.
    destruct (stored_after None pre); exact Hreq.
Qed.

End Chat.

Arguments self {Svc} w.
Arguments texts {Svc} w.
Arguments buttons {Svc} w.
Arguments labels {Svc} w.
Arguments log {Svc} w.
Arguments service {Svc} w.
Arguments ready {Svc} w.
Arguments first_world {Svc} qa.

(** ** The chat widget on the stand-ins *)

(** C5 at [q], on the box [start_chat] displays. *)
Lemma quit_turn_terminates_witness :
  ready (first_world 0) = true
  /\ exists w',
       turn nat echo_service "KB" "ARN" "q" (first_world 0) = (Ok tt, w')
       /\ log w' = log (first_world 0)
                   ++ [Printed "Thank you , that was a nice chat !!"]
       /\ calls (log w') = calls (log (first_world 0))
       /\ boxes (log w') = boxes (log (first_world 0))
       /\ service w' = service (first_world 0)
       /\ self w' = self (first_world 0).
Proof.
  split; [reflexivity|].
  apply (quit_turn_terminates nat echo_service "KB" "ARN" (first_world 0) "q");
    [reflexivity | left; reflexivity].
Defined.



(** C3 at the prompt the stand-in fails on. *)
Lemma failed_call_is_reported_witness :
  exists w',
    turn nat echo_service "KB" "ARN" "boom" (first_world 0) = (Ok tt, w')
    /\ log w' = log (first_world 0)
                ++ [ DisplayedLabel 0;
                     Called (build_request "KB" "ARN" None "boom")
                            (Raised (Exn "ClientError" "throttled"));
                     Printed "throttled";
                     Printed "AI: No answer";
                     DisplayedBox 1 1 ]
    /\ name (self w') = Some 1
    /\ b (self w') = Some 1
    /\ texts w' !! 1 = Some input_box
    /\ buttons w' !! 1 = Some send_button
    /\ ready w' = true.
Proof.
  apply (failed_call_is_reported nat echo_service "KB" "ARN" (first_world 0)
           "boom" (Exn "ClientError" "throttled") 1);
    [reflexivity | reflexivity | discriminate | reflexivity | reflexivity].
Defined.

(** C3 as stated fails: the call is cut short by [KeyboardInterrupt], which
    is not an instance of [Exception].  [chat] raises it instead of catching
    it; the trace of the turn has the label, the call and the exception on its
    way out, and neither the error nor [AI: No answer] is printed; the label
    still reads [Thinking...]; no new input box is displayed. *)
Lemma keyboard_interrupt_is_not_caught :
  fst (chat nat interrupted_service "KB" "ARN"
         (snd (type_line nat "hi" (first_world 0))))
  = Raise (BaseExn "KeyboardInterrupt" "")
  /\ log (snd (turn nat interrupted_service "KB" "ARN" "hi" (first_world 0)))
     = greeting
       ++ [ DisplayedLabel 0;
            Called {| req_sessionId := None;
                      req_input_text := "hi";
                      req_type := "KNOWLEDGE_BASE";
                      req_knowledgeBaseId := "KB";
                      req_modelArn := "ARN" |}
                   (Raised (BaseExn "KeyboardInterrupt" ""));
            Escaped (BaseExn "KeyboardInterrupt" "") ]
  /\ labels (snd (turn nat interrupted_service "KB" "ARN" "hi" (first_world 0)))
     = [thinking_label]
  /\ boxes (log (snd (turn nat interrupted_service "KB" "ARN" "hi"
                           (first_world 0))))
     = [DisplayedBox 0 0].
Proof. repeat split. Qed.

(** C4 as stated fails: [QUIT] and [Quit] match the sentinel without regard to
    case, and the turn that reads [QUIT] makes the generation call. *)
Lemma uppercase_quit_is_sent_to_the_service :
  quit_sentinel_ci "QUIT" = true
  /\ quit_sentinel_ci "Quit" = true
  /\ log (snd (turn nat echo_service "KB" "ARN" "QUIT" (first_world 0)))
     = greeting
       ++ [ DisplayedLabel 0;
            Called {| req_sessionId := None;
                      req_input_text := "QUIT";
                      req_type := "KNOWLEDGE_BASE";
                      req_knowledgeBaseId := "KB";
                      req_modelArn := "ARN" |}
                   (Returned {| sessionId := "session-1";
                                output_text := "echo: QUIT" |});
            Printed "AI: echo: QUIT";
            DisplayedBox 1 1 ].
Proof. repeat split. Qed.

Lemma quit_sentinel_is_exact_witness :
  ready (first_world 0) = true
  /\ quit_sentinel_ci "Quit" = true
  /\ exists w',
       turn nat echo_service "KB" "ARN" "Quit" (first_world 0) = (Ok tt, w')
       /\ (("Quit" = "q" \/ "Quit" = "Q" \/ "Quit" = "quit")
           /\ log w' = log (first_world 0)
                       ++ [Printed "Thank you , that was a nice chat !!"]
           \/
           ~ ("Quit" = "q" \/ "Quit" = "Q" \/ "Quit" = "quit")
           /\ exists res,
                log w' = log (first_world 0)
                         ++ DisplayedLabel 0
                         :: Called (build_request "KB" "ARN" None "Quit") res
                         :: after_call res 1 1).
Proof.
  split; [reflexivity|]. split; [reflexivity|].
  apply (quit_sentinel_is_exact nat echo_service "KB" "ARN" (first_world 0)
           "Quit"); reflexivity.
Defined.

(** C1 as stated fails: the service returns the empty string as session
    identifier; it is stored, and the next generation call omits the session
    field instead of passing it. *)
Lemma blank_session_id_is_not_sent :
  log (snd (session nat blank_session_service "KB" "ARN" 0 ["hello"; "again"]))
  = greeting
    ++ [ DisplayedLabel 0;
         Called {| req_sessionId := None;
                   req_input_text := "hello";
                   req_type := "KNOWLEDGE_BASE";
                   req_knowledgeBaseId := "KB";
                   req_modelArn := "ARN" |}
                (Returned {| sessionId := ""; output_text := "ok" |});
         Printed "AI: ok";
         DisplayedBox 1 1;
         DisplayedLabel 1;
         Called {| req_sessionId := None;
                   req_input_text := "again";
                   req_type := "KNOWLEDGE_BASE";
                   req_knowledgeBaseId := "KB";
                   req_modelArn := "ARN" |}
                (Returned {| sessionId := ""; output_text := "ok" |});
         Printed "AI: ok";
         DisplayedBox 2 2 ]
  /\ session_id (self (snd (session nat blank_session_service "KB" "ARN" 0
                                    ["hello"])))
     = Some ""
  /\ req_sessionId (build_request "KB" "ARN" (Some "") "again") <> Some "".
Proof. repeat split. discriminate. Qed.

(** C1, amended, at the second call of a conversation with the echoing
    stand-in: the identifier the first call returned is sent. *)
Lemma session_id_is_threaded_witness :
  let conversation := session nat echo_service "KB" "ARN" 0 ["hi"; "more"] in
  let first :=
    Called (build_request "KB" "ARN" None "hi")
           (Returned {| sessionId := "session-1"; output_text := "echo: hi" |}) in
  let pre := greeting ++ [DisplayedLabel 0; first; Printed "AI: echo: hi";
                          DisplayedBox 1 1; DisplayedLabel 1] in
  session_id (self (snd conversation)) = last_session (log (snd conversation))
  /\ match last_session pre with
     | None => Some "session-1" = None
     | Some sid => Some "session-1"
                   = if String.eqb sid "" then None else Some sid
     end.
Proof.
  exact (session_id_is_threaded nat echo_service "KB" "ARN" 0 ["hi"; "more"]
           (greeting
            ++ [ DisplayedLabel 0;
                 Called (build_request "KB" "ARN" None "hi")
                        (Returned {| sessionId := "session-1";
                                     output_text := "echo: hi" |});
                 Printed "AI: echo: hi"; DisplayedBox 1 1; DisplayedLabel 1 ])
           (build_request "KB" "ARN" (Some "session-1") "more")
           (Returned {| sessionId := "session-1"; output_text := "echo: more" |})
           [Printed "AI: echo: more"; DisplayedBox 2 2]
           eq_refl).
Defined.


(** ** The retrieval cell *)

Lemma documents_lookup {Score : Type} (supplied : list (retrieval_result Score)) :
  forall i,
    documents supplied !! i
    = (fun x => (content_text (result_content x), result_score x))
        <$> supplied !! i.
Proof.
  induction supplied as [|x rest IH]; intros [|i]; cbn; auto.
Qed.

(** C7 as stated fails: asked for 3 results, a service that supplies four has
    all four returned, the repeated passage included. *)
Lemma retrieval_returns_more_than_count :
  retrieval four_passages "KB" "Toy Story" 3
  = Ok [ ("Toy Story (1995)", 71); ("Toy Story 2 (1999)", 69);
         ("Toy Story (1995)", 71); ("Small Soldiers (1998)", 52) ]
  /\ ~ (Z.of_nat (length [ ("Toy Story (1995)", 71); ("Toy Story 2 (1999)", 69);
                           ("Toy Story (1995)", 71);
                           ("Small Soldiers (1998)", 52) ]) <= 3)%Z.
Proof. split; [reflexivity | cbn; lia]. Qed.

(** C7, amended.  Whatever the query and the count, when the service answers,
    the retrieval cell returns one (text, score) pair per result the service
    supplied, the pair at each position built from the result at that
    position: nothing is reordered, merged or cut locally.  The cell returns
    at most [count] pairs whenever the service supplied at most [count]
    results. *)
Theorem retrieval_keeps_service_results
  (Score : Type) (retrieve : retrieve_request -> result (list (retrieval_result Score)))
  (knowledgebase_id query : string) (count : Z)
  (supplied : list (retrieval_result Score)) :
  retrieve {| retrieve_knowledgeBaseId := knowledgebase_id;
              retrievalQuery_text := query;
              numberOfResults := count |} = Ok supplied ->
  exists out,
    retrieval retrieve knowledgebase_id query count = Ok out
    /\ length out = length supplied
    /\ (forall i,
          out !! i
          = (fun x => (content_text (result_content x), result_score x))
              <$> supplied !! i)
    /\ (Z.of_nat (length supplied) <= count -> Z.of_nat (length out) <= count)%Z.
Proof.
  intros Hsvc. exists (documents supplied).
  unfold retrieval. rewrite Hsvc.
  assert (Hlen : length (documents supplied) = length supplied)
    by (unfold documents; apply List.length_map).
  split; [reflexivity|]. split; [exact Hlen|].
  split; [apply documents_lookup | rewrite Hlen; auto].
Qed.

(** The notebook's own call, ['Toy Story'] and 3, on a service that honours
    the count. *)
Lemma retrieval_keeps_service_results_witness :
  exists out,
    retrieval counted_passages "KB" "Toy Story" 3 = Ok out
    /\ length out = length (take 3 passages)
    /\ (forall i,
          out !! i
          = (fun x => (content_text (result_content x), result_score x))
              <$> take 3 passages !! i)
    /\ (Z.of_nat (length (take 3 passages)) <= 3
        -> Z.of_nat (length out) <= 3)%Z.
Proof.
  apply (retrieval_keeps_service_results nat counted_passages
           "KB" "Toy Story" 3 (take 3 passages)).
  reflexivity.
Defined.

(** ** The model catalog lookup *)

Lemma filter_no_match (before : list Catalog.model_summary) :
  Forall (fun y => Catalog.summary_modelId y <> Catalog.modelId) before ->
  List.filter (fun x => String.eqb (Catalog.summary_modelId x) Catalog.modelId)
              before = [].
Proof.
  induction 1 as [|y rest Hy _ IH]; [reflexivity|].
  cbn. destruct (String.eqb_spec (Catalog.summary_modelId y) Catalog.modelId);
    [contradiction | exact IH].
Qed.

(** C9.  When no entry of the catalog has the model identifier
    [anthropic.claude-v2:1], the lookup raises [IndexError] and yields no
    identifier; when some entry has it, the lookup returns the ['modelArn'] of
    the first such entry. *)
Theorem model_lookup_takes_first_match (catalog : list Catalog.model_summary) :
  (Forall (fun y => Catalog.summary_modelId y <> Catalog.modelId) catalog ->
   Catalog.claude_v2_model_arn (Ok catalog) = Raise IndexError)
  /\ (forall before x after,
        catalog = before ++ x :: after ->
        Forall (fun y => Catalog.summary_modelId y <> Catalog.modelId) before ->
        Catalog.summary_modelId x = Catalog.modelId ->
        Catalog.claude_v2_model_arn (Ok catalog)
        = Ok (Catalog.summary_modelArn x)).
Proof.
  unfold Catalog.claude_v2_model_arn. split.
  - intros Hnone. rewrite (filter_no_match _ Hnone). reflexivity.
  - intros before x after -> Hbefore Hx.
    rewrite List.filter_app, (filter_no_match _ Hbefore). cbn.
    rewrite Hx, String.eqb_refl. reflexivity.
Qed.

Lemma model_lookup_takes_first_match_witness :
  Catalog.claude_v2_model_arn
    (Ok [ {| Catalog.summary_modelId := "amazon.titan-text-express-v1";
             Catalog.summary_modelArn := "arn:titan" |} ])
  = Raise IndexError
  /\ Catalog.claude_v2_model_arn
       (Ok [ {| Catalog.summary_modelId := "anthropic.claude-v2";
                Catalog.summary_modelArn := "arn:claude-v2" |};
             {| Catalog.summary_modelId := "anthropic.claude-v2:1";
                Catalog.summary_modelArn := "arn:claude-v2:1" |};
             {| Catalog.summary_modelId := "anthropic.claude-v2:1";
                Catalog.summary_modelArn := "arn:other" |} ])
     = Ok "arn:claude-v2:1".
Proof.
  split.
  - apply (proj1 (model_lookup_takes_first_match _)).
    repeat constructor. discriminate.
  - apply (proj2 (model_lookup_takes_first_match _)
             [ {| Catalog.summary_modelId := "anthropic.claude-v2";
                  Catalog.summary_modelArn := "arn:claude-v2" |} ]
             {| Catalog.summary_modelId := "anthropic.claude-v2:1";
                Catalog.summary_modelArn := "arn:claude-v2:1" |}
             [ {| Catalog.summary_modelId := "anthropic.claude-v2:1";
                  Catalog.summary_modelArn := "arn:other" |} ]);
      [reflexivity | repeat constructor; discriminate | reflexivity].
Defined.

(** ** Beyond the claims, on the stand-ins *)

Arguments one_active_box {Svc} w.

Lemma answered_call_is_displayed_witness :
  exists w',
    turn nat echo_service "KB" "ARN" "hi" (first_world 0) = (Ok tt, w')
    /\ log w' = log (first_world 0)
                ++ [ DisplayedLabel 0;
                     Called (build_request "KB" "ARN" None "hi")
                            (Returned {| sessionId := "session-1";
                                         output_text := "echo: hi" |});
                     Printed "AI: echo: hi";
                     DisplayedBox 1 1 ]
    /\ session_id (self w') = Some "session-1"
    /\ service w' = 1
    /\ labels w' = [blank_label]
    /\ texts w' !! 1 = Some input_box
    /\ buttons w' !! 1 = Some send_button
    /\ ready w' = true.
Proof.
  apply (answered_call_is_displayed nat echo_service "KB" "ARN" (first_world 0)
           "hi" {| sessionId := "session-1"; output_text := "echo: hi" |} 1);
    [reflexivity | reflexivity | discriminate | reflexivity].
Defined.

Lemma prompt_turn_retires_the_box_witness :
  exists w',
    turn nat echo_service "KB" "ARN" "boom" (first_world 0) = (Ok tt, w')
    /\ texts w' !! 0 = Some {| text_description := "You: ";
                               text_placeholder := "q to quit";
                               text_value := "boom";
                               text_disabled := true |}
    /\ buttons w' !! 0 = Some {| button_description := "Send";
                                 button_disabled := true;
                                 button_on_click := [self_chat] |}
    /\ (forall m, m <> 0 -> m < 1 ->
                  texts w' !! m = texts (first_world 0) !! m)
    /\ (forall m, m <> 0 -> m < 1 ->
                  buttons w' !! m = buttons (first_world 0) !! m)
    /\ length (texts w') = 2
    /\ length (buttons w') = 2.
Proof.
  apply (prompt_turn_retires_the_box nat echo_service "KB" "ARN"
           (first_world 0) "boom" 0 0 input_box send_button);
    [reflexivity | reflexivity | discriminate | reflexivity
     | reflexivity | reflexivity | reflexivity | reflexivity].
Defined.


Lemma chat_does_not_continue_ask_once_witness :
  (exists w,
     bind nat (ask_once nat echo_service "KB" "ARN" "boom")
          (fun _ => bind nat (start_chat nat echo_service "KB" "ARN")
                         (fun _ => run nat echo_service "KB" "ARN" ["hi"]))
          (init nat 0)
     = (Raise (Exn "ClientError" "throttled"), w)
     /\ log w = [Called (build_request "KB" "ARN" None "boom")
                        (Raised (Exn "ClientError" "throttled"))]
     /\ service w = 1)
  /\ exists w evs,
       bind nat (ask_once nat echo_service "KB" "ARN" "first")
            (fun _ => bind nat (start_chat nat echo_service "KB" "ARN")
                           (fun _ => run nat echo_service "KB" "ARN" ["hi"]))
            (init nat 0)
       = (Ok tt, w)
       /\ log w = [ Called (build_request "KB" "ARN" None "first")
                           (Returned {| sessionId := "session-1";
                                        output_text := "echo: first" |});
                    Printed "echo: first" ]
                  ++ greeting ++ evs
       /\ session_id (self w) = last_session evs
       /\ forall pre req res post,
            evs = pre ++ Called req res :: post ->
            match last_session pre with
            | None => req_sessionId req = None
            | Some sid => req_sessionId req
                          = if String.eqb sid "" then None else Some sid
            end.
Proof.
  split.
  - apply (proj1 (chat_does_not_continue_ask_once nat echo_service "KB" "ARN"
                    "boom" 0 ["hi"]) (Exn "ClientError" "throttled") 1).
    reflexivity.
  - apply (proj2 (chat_does_not_continue_ask_once nat echo_service "KB" "ARN"
                    "first" 0 ["hi"])
                 {| sessionId := "session-1"; output_text := "echo: first" |} 1).
    reflexivity.
Defined.

(** ** Beyond the claims: the printing loop and the model lookup *)

(** X10.  When [retrieve] answers, the retrieval cell and the printing loop
    print one line per result supplied, in the order supplied, each made of
    the text and the score of that result; with no result, nothing is
    printed.  When [retrieve] raises, the error leaves the cells and nothing
    is printed. *)
Theorem retrieval_prints_one_line_per_result
  (Score : Type) (show : Score -> string)
  (retrieve : retrieve_request -> result (list (retrieval_result Score)))
  (knowledgebase_id query : string) (count : Z) :
  let req := {| retrieve_knowledgeBaseId := knowledgebase_id;
                retrievalQuery_text := query;
                numberOfResults := count |} in
  (forall supplied,
     retrieve req = Ok supplied ->
     exists lines,
       retrieval_output show retrieve knowledgebase_id query count = Ok lines
       /\ length lines = length supplied
       /\ forall i,
            lines !! i
            = (fun x => ("==> Document Text: "
                         ++ content_text (result_content x)
                         ++ ", Score: " ++ show (result_score x))%string)
                <$> supplied !! i)
  /\ (forall e,
        retrieve req = Raise e ->
        retrieval_output show retrieve knowledgebase_id query count = Raise e).
Proof.
  intros req. unfold retrieval_output, retrieval. fold req. split.
  - intros supplied ->. eexists. split; [reflexivity|]. split.
    + unfold documents. rewrite !List.length_map. reflexivity.
    + induction supplied as [|x rest IH]; intros [|i]; cbn; auto.
  - intros e ->. reflexivity.
Qed.

Lemma retrieval_prints_one_line_per_result_witness :
  (exists lines,
     retrieval_output show_hundredths counted_passages "KB" "Toy Story" 2
     = Ok lines
     /\ length lines = length (take 2 passages)
     /\ forall i,
          lines !! i
          = (fun x => ("==> Document Text: "
                       ++ content_text (result_content x)
                       ++ ", Score: " ++ show_hundredths (result_score x))%string)
              <$> take 2 passages !! i)
  /\ retrieval_output show_hundredths
       (fun _ => Raise (Exn "ResourceNotFoundException" "no such knowledge base"))
       "KB" "Toy Story" 2
     = Raise (Exn "ResourceNotFoundException" "no such knowledge base").
Proof.
  split.
  - apply (proj1 (retrieval_prints_one_line_per_result nat show_hundredths
                    counted_passages "KB" "Toy Story" 2)
                 (take 2 passages)).
    reflexivity.
  - apply (proj2 (retrieval_prints_one_line_per_result nat show_hundredths
                    (fun _ => Raise (Exn "ResourceNotFoundException"
                                         "no such knowledge base"))
                    "KB" "Toy Story" 2)).
    reflexivity.
Defined.

(** The lines the notebook prints on the stand-in that honours the count. *)
Lemma retrieval_output_example :
  retrieval_output show_hundredths counted_passages "KB" "Toy Story" 2
  = Ok [ "==> Document Text: Toy Story (1995), Score: 0.71";
         "==> Document Text: Toy Story 2 (1999), Score: 0.69" ].
Proof. reflexivity. Qed.

Lemma filter_first_match (l : list Catalog.model_summary) :
  forall x rest,
    List.filter (fun y => String.eqb (Catalog.summary_modelId y) Catalog.modelId) l
    = x :: rest ->
    exists before after,
      l = before ++ x :: after
      /\ Forall (fun y => Catalog.summary_modelId y <> Catalog.modelId) before
      /\ Catalog.summary_modelId x = Catalog.modelId.
Proof.
  induction l as [|y l IH]; intros x rest; cbn; [discriminate|].
  destruct (String.eqb_spec (Catalog.summary_modelId y) Catalog.modelId) as [Hy|Hy].
  - intros [= <- _]. exists [], l. repeat split; [constructor | exact Hy].
  - intros H. destruct (IH x rest H) as (before & after & -> & Hb & Hx).
    exists (y :: before), after. repeat split; [constructor; assumption | exact Hx].
Qed.

(** X8.  The model lookup returns an identifier only if it is the ['modelArn']
    of an entry of the catalog whose ['modelId'] is [anthropic.claude-v2:1]
    and which no such entry precedes; the only error it raises on a catalog
    is [IndexError], and it raises it only if no entry has that ['modelId'];
    an error of [list_foundation_models] leaves the cell unchanged. *)
Theorem model_lookup_is_sound (catalog : list Catalog.model_summary) :
  (forall arn,
     Catalog.claude_v2_model_arn (Ok catalog) = Ok arn <->
     exists before x after,
       catalog = before ++ x :: after
       /\ Forall (fun y => Catalog.summary_modelId y <> Catalog.modelId) before
       /\ Catalog.summary_modelId x = Catalog.modelId
       /\ Catalog.summary_modelArn x = arn)
  /\ (forall e,
        Catalog.claude_v2_model_arn (Ok catalog) = Raise e <->
        e = IndexError
        /\ Forall (fun y => Catalog.summary_modelId y <> Catalog.modelId) catalog)
  /\ (forall e, Catalog.claude_v2_model_arn (Raise e) = Raise e).
Proof.
  unfold Catalog.claude_v2_model_arn. split; [|split].
  - intros arn. split.
    + destruct (List.filter _ catalog) as [|x rest] eqn:Hf; [discriminate|].
      intros [= <-].
      destruct (filter_first_match catalog x rest Hf) as (before & after & -> & Hb & Hx).
      exists before, x, after. repeat split; assumption.
    + intros (before & x & after & -> & Hb & Hx & <-).
      rewrite List.filter_app, (filter_no_match _ Hb). cbn.
      rewrite Hx, String.eqb_refl. reflexivity.
  - intros e. split.
    + destruct (List.filter _ catalog) as [|x rest] eqn:Hf; [|discriminate].
      intros [= <-]. split; [reflexivity|].
      apply Forall_forall. intros y Hy Heq.
      assert (Hin : In y (List.filter
                (fun y => String.eqb (Catalog.summary_modelId y) Catalog.modelId)
                catalog)).
      { apply List.filter_In. split; [apply list_elem_of_In; exact Hy|].
        apply String.eqb_eq; exact Heq. }
      rewrite Hf in Hin. destruct Hin.
    + intros [-> Hnone]. rewrite (filter_no_match _ Hnone). reflexivity.
  - reflexivity.
Qed.

Lemma model_lookup_is_sound_witness :
  exists before x after,
    [ {| Catalog.summary_modelId := "anthropic.claude-v2";
         Catalog.summary_modelArn := "arn:claude-v2" |};
      {| Catalog.summary_modelId := "anthropic.claude-v2:1";
         Catalog.summary_modelArn := "arn:claude-v2:1" |} ]
    = before ++ x :: after
    /\ Forall (fun y => Catalog.summary_modelId y <> Catalog.modelId) before
    /\ Catalog.summary_modelId x = Catalog.modelId
    /\ Catalog.summary_modelArn x = "arn:claude-v2:1".
Proof.
  apply (proj1 (model_lookup_is_sound _)). reflexivity.
Defined.

Lemma uncaught_exception_leaves_the_box_in_use_witness :
  (exists w1 w2,
     type_line nat "hi" (first_world 0) = (Ok tt, w1)
     /\ chat nat interrupted_service "KB" "ARN" w1
        = (Raise (BaseExn "KeyboardInterrupt" ""), w2)
     /\ log w2 = log (first_world 0)
                 ++ [ DisplayedLabel 0;
                      Called (build_request "KB" "ARN" None "hi")
                             (Raised (BaseExn "KeyboardInterrupt" "")) ])
  /\ exists w',
       turn nat interrupted_service "KB" "ARN" "hi" (first_world 0) = (Ok tt, w')
       /\ log w' = log (first_world 0)
                   ++ [ DisplayedLabel 0;
                        Called (build_request "KB" "ARN" None "hi")
                               (Raised (BaseExn "KeyboardInterrupt" ""));
                        Escaped (BaseExn "KeyboardInterrupt" "") ]
       /\ self w' = self (first_world 0)
       /\ service w' = 1
       /\ labels w' = [thinking_label]
       /\ buttons w' = buttons (first_world 0)
       /\ length (texts w') = 1
       /\ ready w' = true.
Proof.
  apply (uncaught_exception_leaves_the_box_in_use nat interrupted_service
           "KB" "ARN" (first_world 0) "hi" (BaseExn "KeyboardInterrupt" "") 1);
    [reflexivity | reflexivity | discriminate | reflexivity | reflexivity].
Defined.
